(** * btw5-switch: the Creative BT-W5 mode switcher

    A shallow embedding of [btw5-switch.py].  The script is one straight
    line of calls into the operating system, [argparse] and PyUSB; every
    call either returns, raises a Python exception or ends the process.
    The embedding keeps that shape: the script is a term of a small
    state-and-exception monad, the replies of the outside world are read
    from a [Machine] record, and every call the script makes is appended
    to a trace that the theorems below talk about.

    A [Machine] says what the caller and the platform are like: the
    effective user, the command line (words and help options), whether
    PyUSB finds a backend, the devices on the bus, and whether the query
    for the kernel driver works.  The calls the script wraps in [try]
    may raise, with the class of the exception deciding whether the
    [except] clause applies; of the calls it leaves bare,
    [usb.core.find] and [dev.is_kernel_driver_active] may raise as well,
    and nothing catches what they raise; [os.geteuid], [print] and
    [usb.util.dispose_resources] return.

    A [Host] is the ordinary case of a machine: at most one word on the
    command line, a working backend and a working driver query.  [run]
    is the script on a host, up to the point where it stops; [process]
    is the script on any machine, followed by what the interpreter does
    when it exits. *)

From Stdlib Require Import ZArith String List Sorted Lia.
From stdpp Require Import base option list strings.

Local Open Scope string_scope.
Local Open Scope list_scope.

(** ** Python values the script handles *)

(** Exceptions.  The script catches [usb.core.USBError] in three places
    and [Exception] in one, so the class of an exception matters: any
    exception that is not a [USBError] is an [OtherException]. *)
Inductive exn_class := USBError | OtherException.

Record exn := Exn { cls : exn_class; strerror : string }.

Global Instance exn_class_eq_dec : EqDecision exn_class.
Proof. solve_decision. Defined.

(** The argument handed to [sys.exit]: a plain message, an f-string
    built from a prefix and a caught exception, or a numeric status (the
    form [argparse] uses for a usage error). *)
Inductive exit_arg :=
| ExitStatus (n : Z)
| ExitMsg (s : string)
| ExitFmt (prefix : string) (e : exn).

(** A string argument is printed to stderr and the status is 1. *)
Definition exit_status (a : exit_arg) : Z :=
  match a with
  | ExitStatus n => n
  | ExitMsg _ | ExitFmt _ _ => 1%Z
  end.

(** How a piece of the script ends: it returns a value, an exception
    propagates out of it, or [SystemExit] does (which no [except] clause
    of the script catches, since it is not an [Exception]). *)
Inductive outcome (A : Type) :=
| Val (a : A)
| Raised (e : exn)
| Exited (arg : exit_arg).
Arguments Val {A} a.
Arguments Raised {A} e.
Arguments Exited {A} arg.

(** ** USB descriptors, as PyUSB presents them *)

Record Endpoint := { bEndpointAddress : Z }.

Record Interface := { bInterfaceNumber : Z; endpoints : list Endpoint }.

(** [interfaces cfg] is indexed by interface index, then by alternate
    setting index, the two components of the key in [cfg[(0, 0)]]. *)
Record Configuration := { interfaces : list (list Interface) }.

(** A device on the bus, with the reply it gives to each request the
    script can make.  The script makes each request at most once, so one
    reply per request describes what the device does in one run; the
    reply to the control transfer is the reply to the payload of that
    run. *)
Record Device := {
  idVendor : Z;
  idProduct : Z;
  active_configuration : exn + Configuration;
  detach_reply : option exn;      (* None: the driver lets go *)
  ctrl_transfer_reply : exn + Z;  (* inr n: n bytes were written *)
  attach_reply : option exn       (* None: the driver binds again *)
}.

(** What the process finds when it starts, in the ordinary case. *)
Record Host := {
  euid : Z;                   (* os.geteuid() *)
  argv_mode : option string;  (* the token given for [mode], if any *)
  bus : list Device           (* the devices usb.core.find enumerates *)
}.

(** An argument of the command line: the help option ([-h] or
    [--help]), or a word, that is an argument that does not start with a
    dash and that [argparse] therefore reads as positional. *)
Inductive arg := Word (s : string) | HelpFlag.

(** What the process finds when it starts, in general. *)
Record Machine := {
  uid : Z;                     (* os.geteuid() *)
  argv : list arg;             (* sys.argv[1:] *)
  backend : option exn;        (* Some e: usb.core.find raises e *)
  attached : list Device;      (* the devices usb.core.find enumerates *)
  driver_query : option exn    (* Some e: is_kernel_driver_active raises e *)
}.

(** A host as a machine. *)
Definition plain (h : Host) : Machine :=
  {| uid := euid h;
     argv := match argv_mode h with Some tok => [Word tok] | None => [] end;
     backend := None;
     attached := bus h;
     driver_query := None |}.

(** ** Calls and the state they act on *)

Inductive event :=
| geteuid_call
| parse_args_call
| find_call (vid pid : Z)
| get_active_configuration_call
| is_kernel_driver_active_call (i : Z)
| detach_kernel_driver_call (i : Z)
| print_call (s : string)
| ctrl_transfer_call (bmRequestType bRequest wValue wIndex : Z) (data : list Z)
| attach_kernel_driver_call (i : Z)
| dispose_resources_call.

(** The mutable part of the world: whether the kernel driver is bound to
    the dongle's interface, whether the device resources were released,
    and the calls made so far, oldest first. *)
Record World := {
  kernel_driver : bool;
  released : bool;
  trace : list event
}.

Definition boot (driver : bool) : World :=
  {| kernel_driver := driver; released := false; trace := [] |}.

Definition log (ev : event) (w : World) : World :=
  {| kernel_driver := kernel_driver w; released := released w;
     trace := trace w ++ [ev] |}.

Definition set_kernel_driver (b : bool) (w : World) : World :=
  {| kernel_driver := b; released := released w; trace := trace w |}.

Definition set_released (w : World) : World :=
  {| kernel_driver := kernel_driver w; released := true; trace := trace w |}.

(** ** The monad of script fragments *)

Definition py (A : Type) : Type := World → outcome A * World.

Global Instance py_ret : MRet py := λ A a w, (Val a, w).

Global Instance py_bind : MBind py := λ A B f m w,
  match m w with
  | (Val a, w') => f a w'
  | (Raised e, w') => (Raised e, w')
  | (Exited arg, w') => (Exited arg, w')
  end.

Definition raise {A} (e : exn) : py A := λ w, (Raised e, w).

Definition sys_exit {A} (arg : exit_arg) : py A := λ w, (Exited arg, w).

Definition call (ev : event) : py unit := λ w, (Val tt, log ev w).

Definition modify (f : World → World) : py unit := λ w, (Val tt, f w).

Definition get_kernel_driver : py bool := λ w, (Val (kernel_driver w), w).

(** [try: body / except <class> as e: handler e].  An exception the
    clause does not name, and [SystemExit], pass through. *)
Definition try_except {A} (body : py A) (catches : exn → bool)
    (handler : exn → py A) : py A := λ w,
  match body w with
  | (Raised e, w') => if catches e then handler e w' else (Raised e, w')
  | r => r
  end.

Definition Exception (e : exn) : bool := true.

Definition usb_core_USBError (e : exn) : bool := bool_decide (cls e = USBError).

(** Lift a reply that is an exception or a value. *)
Definition reply {A} (r : exn + A) : py A :=
  match r with
  | inl e => raise e
  | inr a => mret a
  end.

Definition reply_unit (r : option exn) : py unit :=
  match r with
  | Some e => raise e
  | None => mret tt
  end.

(** ** The library calls of the script *)

(** [os.geteuid()] *)
Definition geteuid (M : Machine) : py Z :=
  call geteuid_call ;; mret (uid M).

(** The namespace [parser.parse_args()] returns. *)
Record Namespace := { mode : string }.

(** [choices=['hq', 'll']] of the one positional argument. *)
Definition choices : list string := ["hq"; "ll"].

(** How [argparse] ends on a command line. *)
Inductive parse_result :=
| Parsed (args : Namespace)
| HelpExit       (* the help is printed, the status is 0 *)
| UsageError.    (* a message goes to stderr, the status is 2 *)

(** The parser the script builds: the positional [mode] with [choices],
    and the help option every [ArgumentParser] has by default.  The
    arguments are read from left to right.  The first word is bound to
    [mode] and checked against the choices on the spot; later words are
    set aside as unrecognized; a help option prints the help and exits
    at once, whatever comes after it.  At the end a missing [mode] and
    unrecognized words are errors.  [bound] is the value of [mode] so
    far, [extras] whether words were set aside. *)
Fixpoint argparse (bound : option string) (extras : bool) (l : list arg)
    : parse_result :=
  match l with
  | [] =>
      match bound with
      | Some tok => if extras then UsageError else Parsed {| mode := tok |}
      | None => UsageError
      end
  | HelpFlag :: _ => HelpExit
  | Word s :: rest =>
      match bound with
      | None =>
          if bool_decide (s ∈ choices) then argparse (Some s) extras rest
          else UsageError
      | Some _ => argparse bound true rest
      end
  end.

(** [parser.parse_args()] *)
Definition parse_args (M : Machine) : py Namespace :=
  call parse_args_call ;;
  match argparse None false (argv M) with
  | Parsed args => mret args
  | HelpExit => sys_exit (ExitStatus 0)
  | UsageError => sys_exit (ExitStatus 2)
  end.

(** [usb.core.find(idVendor=vid, idProduct=pid)]: the first device on
    the bus with these identifiers, or [None]. *)
Definition enumerate (devices : list Device) (vid pid : Z) : option Device :=
  List.find (λ d, bool_decide (idVendor d = vid ∧ idProduct d = pid)) devices.

Definition usb_core_find (M : Machine) (vid pid : Z) : py (option Device) :=
  call (find_call vid pid) ;;
  reply_unit (backend M) ;;
  mret (enumerate (attached M) vid pid).

(** [dev.get_active_configuration()] *)
Definition get_active_configuration (dev : Device) : py Configuration :=
  call get_active_configuration_call ;; reply (active_configuration dev).

Definition IndexError : exn := Exn OtherException "IndexError".

(** [cfg[(index, alt)]] *)
Definition cfg_getitem (cfg : Configuration) (key : nat * nat) : py Interface :=
  match interfaces cfg !! key.1 ≫= (.!! key.2) with
  | Some intf => mret intf
  | None => raise IndexError
  end.

(** [intf[index]] *)
Definition intf_getitem (intf : Interface) (index : nat) : py Endpoint :=
  match endpoints intf !! index with
  | Some ep => mret ep
  | None => raise IndexError
  end.

(** [dev.is_kernel_driver_active(i)] *)
Definition is_kernel_driver_active (M : Machine) (dev : Device) (i : Z)
    : py bool :=
  call (is_kernel_driver_active_call i) ;;
  reply_unit (driver_query M) ;;
  get_kernel_driver.

(** [dev.detach_kernel_driver(i)] *)
Definition detach_kernel_driver (dev : Device) (i : Z) : py unit :=
  call (detach_kernel_driver_call i) ;;
  reply_unit (detach_reply dev) ;;
  modify (set_kernel_driver false).

(** [dev.attach_kernel_driver(i)] *)
Definition attach_kernel_driver (dev : Device) (i : Z) : py unit :=
  call (attach_kernel_driver_call i) ;;
  reply_unit (attach_reply dev) ;;
  modify (set_kernel_driver true).

(** [dev.ctrl_transfer(bmRequestType, bRequest, wValue, wIndex, data)]
    for a host-to-device request: the number of bytes written. *)
Definition ctrl_transfer (dev : Device)
    (bmRequestType bRequest wValue wIndex : Z) (data : list Z) : py Z :=
  call (ctrl_transfer_call bmRequestType bRequest wValue wIndex data) ;;
  reply (ctrl_transfer_reply dev).

(** [usb.util.dispose_resources(dev)], the call the script makes on its
    last line.  The same release happens without the script when the
    interpreter exits: see [interpreter_exit]. *)
Definition dispose_resources (dev : Device) : py unit :=
  call dispose_resources_call ;; modify set_released.

Definition print (s : string) : py unit := call (print_call s).

(** ** The script *)

Definition data_hq : list Z := [0x03; 0x5a; 0x6b; 0x03; 0x0a; 0x03; 0x40]%Z.
Definition data_ll : list Z := [0x03; 0x5a; 0x6b; 0x03; 0x0a; 0x03; 0x20]%Z.

(** [len(data)] *)
Definition len {A} (l : list A) : Z := Z.of_nat (length l).

(** [[0x00] * n]; a count below one gives the empty list. *)
Definition zeros (n : Z) : list Z := replicate (Z.to_nat n) 0%Z.

(** [list(itertools.chain(data, [0x00] * (65 - len(data))))] *)
Definition pad (data : list Z) : list Z := data ++ zeros (65 - len data).

(** The branch on [args.mode]: the data and the line printed. *)
Definition select (m : string) : list Z * string :=
  if bool_decide (m = "hq")
  then (data_hq, "Switching to AptX Adaptive High Quality mode...")
  else (data_ll, "Switching to AptX Adaptive Low Latency mode...").

(** The payload sent for a mode. *)
Definition payload (m : string) : list Z := pad (select m).1.

Definition USBError_new (msg : string) : exn := Exn USBError msg.

(** The script has no functions; its parts are named here after the
    comments that introduce them. *)

(** [# Ensure the script is run with root permissions] *)
Definition ensure_root (M : Machine) : py unit :=
  user ← geteuid M;
  if bool_decide (user ≠ 0%Z)
  then sys_exit (ExitMsg "This script must be run as root. Try using 'sudo'.")
  else mret tt.

(** [# Find the BT-W5 device] *)
Definition find_device (M : Machine) : py Device :=
  dev ← usb_core_find M 0x041e 0x3130;
  match dev with
  | None =>
      sys_exit (ExitMsg
        "BT-W5 device not found. Check if it is connected or permissions on /dev/bus/usb/...")
  | Some dev => mret dev
  end.

(** [# Obtain the first configuration and interface]; the value is [i],
    the only name of the block that the rest of the script reads. *)
Definition obtain_interface (dev : Device) : py Z :=
  try_except
    (cfg ← get_active_configuration dev;
     intf ← cfg_getitem cfg (0, 0)%nat;
     ep ← intf_getitem intf 0%nat;
     mret (bInterfaceNumber intf))
    Exception
    (λ e, sys_exit (ExitFmt "Failed to retrieve the device configuration: " e)).

(** [# Detach kernel driver if necessary]; the value is [reattach]. *)
Definition detach_if_necessary (M : Machine) (dev : Device) (i : Z) : py bool :=
  active ← is_kernel_driver_active M dev i;
  if active : bool
  then try_except
         (detach_kernel_driver dev i ;; mret true)
         usb_core_USBError
         (λ e, sys_exit (ExitFmt "Could not detach kernel driver: " e))
  else mret false.

(** [# Send control transfer to the device] *)
Definition send_control_transfer (dev : Device) (data : list Z) : py unit :=
  try_except
    (result ← ctrl_transfer dev 0x21 0x09 0x203 0x00 data;
     (if bool_decide (result ≠ len data)
      then raise (USBError_new "Incomplete control transfer.")
      else mret tt) ;;
     print "Mode switch successful.")
    usb_core_USBError
    (λ e, sys_exit (ExitFmt "Failed to send control transfer: " e)).

(** [# Reattach the kernel driver if it was detached] *)
Definition reattach_if_detached (dev : Device) (i : Z) (reattach : bool) : py unit :=
  if reattach
  then try_except
         (attach_kernel_driver dev i)
         usb_core_USBError
         (λ e, sys_exit (ExitFmt "Could not reattach kernel driver: " e))
  else mret tt.

(** What follows the preconditions, for the device [dev], its interface
    number [i] and the mode [m] of the command line. *)
Definition switch (M : Machine) (dev : Device) (i : Z) (m : string) : py unit :=
  reattach ← detach_if_necessary M dev i;
  let '(data, line) := select m in
  print line ;;
  let data := pad data in
  send_control_transfer dev data ;;
  reattach_if_detached dev i reattach ;;
  dispose_resources dev.

(** The whole script, top to bottom. *)
Definition script (M : Machine) : py unit :=
  ensure_root M ;;
  args ← parse_args M;
  dev ← find_device M;
  i ← obtain_interface dev;
  switch M dev i (mode args).

(** The script on a host. *)
Definition main (h : Host) : py unit := script (plain h).

(** Running the script on a host whose kernel driver is bound to the
    dongle ([driver = true]) or not, up to the point where the script
    stops; what the interpreter does after that is in [process]. *)
Definition run (h : Host) (driver : bool) : outcome unit * World :=
  main h (boot driver).

(** The status the process ends with: 0 when the script runs off its
    last line, the status of [sys.exit] when that was called, 1 when an
    exception reaches the top level. *)
Definition exit_code (r : outcome unit * World) : Z :=
  match r.1 with
  | Val _ => 0%Z
  | Raised _ => 1%Z
  | Exited arg => exit_status arg
  end.

Definition calls (r : outcome unit * World) : list event := trace r.2.

(** ** The end of the process *)

Definition is_find_call (ev : event) : bool :=
  match ev with
  | find_call _ _ => true
  | _ => false
  end.

(** What [usb.core.find] hands to the script when it is called. *)
Definition found (M : Machine) : option Device :=
  match backend M with
  | Some _ => None
  | None => enumerate (attached M) 0x041e 0x3130
  end.

(** The [Device] object the process holds in world [w]: the one
    [usb.core.find] returned, once that call has been made. *)
Definition device_object (M : Machine) (w : World) : option Device :=
  if existsb is_find_call (trace w) then found M else None.

(** What the interpreter does when it exits, on every way out (the end
    of the script, [sys.exit], an uncaught exception): PyUSB gives each
    [Device] object a finalizer that disposes of its resources as
    [usb.util.dispose_resources] does, and the interpreter runs the
    finalizers of the objects that are still alive. *)
Definition interpreter_exit (M : Machine) (r : outcome unit * World)
    : outcome unit * World :=
  (r.1,
   match device_object M r.2 with
   | Some _ => set_released r.2
   | None => r.2
   end).

(** The process from start to exit, on a machine whose kernel driver is
    bound to the dongle ([driver = true]) or not. *)
Definition process (M : Machine) (driver : bool) : outcome unit * World :=
  interpreter_exit M (script M (boot driver)).

(** ** Vocabulary of the properties *)

(** What the block that obtains the configuration, the first interface
    and its first endpoint comes to for a device: the interface number,
    or the exception that ends the block. *)
Definition retrieved (dev : Device) : exn + Z :=
  match active_configuration dev with
  | inl e => inl e
  | inr cfg =>
      match interfaces cfg !! 0%nat ≫= (.!! 0%nat) with
      | None => inl IndexError
      | Some intf =>
          match endpoints intf !! 0%nat with
          | None => inl IndexError
          | Some _ => inr (bInterfaceNumber intf)
          end
      end
  end.

(** The four preconditions hold on host [h]: the caller is root, the
    command line selects mode [m], the dongle [dev] is on the bus, and
    its interface number [i] could be retrieved. *)
Record preconditions (h : Host) (m : string) (dev : Device) (i : Z) : Prop := {
  pre_root : euid h = 0%Z;
  pre_mode : argv_mode h = Some m;
  pre_choice : m ∈ choices;
  pre_found : enumerate (bus h) 0x041e 0x3130 = Some dev;
  pre_interface : retrieved dev = inr i
}.

(** The script gets as far as the control transfer: the preconditions
    hold and a bound kernel driver lets itself be detached. *)
Definition reaches_transfer (h : Host) (driver : bool) (m : string)
    (dev : Device) (i : Z) : Prop :=
  preconditions h m dev i ∧ (driver = true → detach_reply dev = None).

(** The control transfer fails: PyUSB raises, or reports a count other
    than the 65 bytes of the payload. *)
Definition transfer_fails (dev : Device) : Prop :=
  match ctrl_transfer_reply dev with
  | inl _ => True
  | inr n => n ≠ 65%Z
  end.

(** The transfer is one the script reports as failed: a [USBError] from
    the transport, or a count other than 65. *)
Definition transfer_reported (dev : Device) : Prop :=
  match ctrl_transfer_reply dev with
  | inl e => cls e = USBError
  | inr n => n ≠ 65%Z
  end.

(** Everything succeeds. *)
Definition succeeds (h : Host) (driver : bool) : Prop :=
  ∃ m dev i,
    reaches_transfer h driver m dev i ∧
    ctrl_transfer_reply dev = inr 65%Z ∧
    (driver = true → attach_reply dev = None).

(** The control transfers among the calls of a trace, with their
    parameters. *)
Definition transfers (l : list event) : list (Z * Z * Z * Z * list Z) :=
  omap (λ ev, match ev with
              | ctrl_transfer_call rt rq v ix data => Some (rt, rq, v, ix, data)
              | _ => None
              end) l.


Definition success_line : string := "Mode switch successful.".

(** The place of a call in the script, counted from the top. *)
Definition step (ev : event) : nat :=
  match ev with
  | geteuid_call => 0
  | parse_args_call => 1
  | find_call _ _ => 2
  | get_active_configuration_call => 3
  | is_kernel_driver_active_call _ => 4
  | detach_kernel_driver_call _ => 5
  | print_call s => if bool_decide (s = success_line) then 8 else 6
  | ctrl_transfer_call _ _ _ _ _ => 7
  | attach_kernel_driver_call _ => 9
  | dispose_resources_call => 10
  end.

(** The calls every run makes up to the check of the kernel driver, once
    the preconditions hold. *)
Definition preamble (i : Z) : list event :=
  [geteuid_call; parse_args_call; find_call 0x041e 0x3130;
   get_active_configuration_call; is_kernel_driver_active_call i].

(** What [sys.exit] is handed when the transfer is reported as failed. *)
Definition failed_transfer (e : exn) : exit_arg :=
  ExitFmt "Failed to send control transfer: " e.

(** The exception the script raises itself on a wrong count. *)
Definition incomplete : exn := USBError_new "Incomplete control transfer.".

(** The world once the four preconditions have been checked. *)
Definition preconditions_passed (w : World) : World :=
  log get_active_configuration_call
    (log (find_call 0x041e 0x3130) (log parse_args_call (log geteuid_call w))).

(** What [sys.exit] is handed when the driver cannot be bound again. *)
Definition failed_reattach (e : exn) : exit_arg :=
  ExitFmt "Could not reattach kernel driver: " e.

(** The calls made before the control transfer, by a run that gets
    there: the preamble, the detach if the driver was bound, and the
    line that announces the mode. *)
Definition before_transfer (i : Z) (driver : bool) (m : string) : list event :=
  preamble i ++ (if driver then [detach_kernel_driver_call i] else []) ++
  [print_call (select m).2].

(** The command line carries no mode token, or one other than [hq] and
    [ll]. *)
Definition invalid_mode (tok : option string) : Prop :=
  match tok with
  | None => True
  | Some t => t ≠ "hq" ∧ t ≠ "ll"
  end.

(** The arguments of [sys.exit] on the early exits. *)
Definition not_root : exit_arg :=
  ExitMsg "This script must be run as root. Try using 'sudo'.".

Definition usage_error : exit_arg := ExitStatus 2.

Definition not_found : exit_arg :=
  ExitMsg "BT-W5 device not found. Check if it is connected or permissions on /dev/bus/usb/...".

Definition failed_configuration (e : exn) : exit_arg :=
  ExitFmt "Failed to retrieve the device configuration: " e.

Definition failed_detach (e : exn) : exit_arg :=
  ExitFmt "Could not detach kernel driver: " e.

(** How a run ends when [e] comes out of a block that catches only
    [usb.core.USBError]: the handler exits with [report e], anything
    else reaches the top level. *)
Definition caught_or_raised (report : exn → exit_arg) (e : exn) : outcome unit :=
  if bool_decide (cls e = USBError) then Exited (report e) else Raised e.

(** A world in which nothing was released, with the given driver state
    and calls. *)
Definition stuck (driver : bool) (l : list event) : World :=
  {| kernel_driver := driver; released := false; trace := l |}.

(** The failure classes of the script. *)
Inductive failure_class :=
| Privilege | Usage | DeviceNotFound | ConfigurationRetrieval
| DriverDetach | Transfer | DriverReattach.

(** [fails h b c]: on host [h], with the kernel driver bound or not as
    [b] says, the run meets a failure of class [c]. *)
Inductive fails (h : Host) (b : bool) : failure_class → Prop :=
| fails_privilege :
    euid h ≠ 0%Z → fails h b Privilege
| fails_usage :
    euid h = 0%Z → invalid_mode (argv_mode h) → fails h b Usage
| fails_not_found m :
    euid h = 0%Z → argv_mode h = Some m → m ∈ choices →
    enumerate (bus h) 0x041e 0x3130 = None → fails h b DeviceNotFound
| fails_configuration m dev e :
    euid h = 0%Z → argv_mode h = Some m → m ∈ choices →
    enumerate (bus h) 0x041e 0x3130 = Some dev →
    retrieved dev = inl e → fails h b ConfigurationRetrieval
| fails_detach m dev i e :
    preconditions h m dev i → b = true → detach_reply dev = Some e →
    fails h b DriverDetach
| fails_transfer m dev i :
    reaches_transfer h b m dev i → transfer_fails dev → fails h b Transfer
| fails_reattach m dev i e :
    reaches_transfer h b m dev i → ctrl_transfer_reply dev = inr 65%Z →
    b = true → attach_reply dev = Some e → fails h b DriverReattach.

(** The classes that stop the run before the control transfer. *)
Definition early (c : failure_class) : bool :=
  match c with
  | Transfer | DriverReattach => false
  | _ => true
  end.

(** The calls of a run that passes every check, up to the detach. *)
Definition checks (i : Z) : list event :=
  preamble i ++ [detach_kernel_driver_call i].

(** ** Sample hosts *)

Definition hid_interface : Interface :=
  {| bInterfaceNumber := 3; endpoints := [ {| bEndpointAddress := 0x81 |} ] |}.

(** A dongle that answers the transfer with [written] bytes. *)
Definition dongle (written : Z) (reattach : option exn) : Device :=
  {| idVendor := 0x041e; idProduct := 0x3130;
     active_configuration := inr {| interfaces := [[hid_interface]] |};
     detach_reply := None;
     ctrl_transfer_reply := inr written;
     attach_reply := reattach |}.

Definition host_of (tok : option string) (dev : Device) : Host :=
  {| euid := 0; argv_mode := tok; bus := [dev] |}.

(** A run in which the driver is detached and the transfer comes back
    one byte short. *)
Definition short_host : Host := host_of (Some "hq") (dongle 64 None).

Definition short_run : outcome unit * World := run short_host true.

Definition busy : exn := Exn USBError "[Errno 16] Resource busy".

(** A dongle whose kernel driver cannot be detached. *)
Definition locked_dongle : Device :=
  {| idVendor := 0x041e; idProduct := 0x3130;
     active_configuration := inr {| interfaces := [[hid_interface]] |};
     detach_reply := Some busy;
     ctrl_transfer_reply := inr 65%Z;
     attach_reply := None |}.

(** A host whose caller is not root. *)
Definition user_host : Host :=
  {| euid := 1000; argv_mode := Some "hq"; bus := [dongle 65 None] |}.

(** ** Further vocabulary *)

(** The lines the script prints, among the calls of a trace. *)
Definition prints (l : list event) : list string :=
  omap (λ ev, match ev with print_call s => Some s | _ => None end) l.

Definition hq_line : string := "Switching to AptX Adaptive High Quality mode...".

Definition ll_line : string := "Switching to AptX Adaptive Low Latency mode...".

(** The identifiers the script looks for. *)
Definition is_dongle (d : Device) : Prop :=
  idVendor d = 0x041e%Z ∧ idProduct d = 0x3130%Z.

(** The host a machine comes to once its command line is parsed. *)
Definition view (M : Machine) (args : Namespace) : Host :=
  {| euid := uid M; argv_mode := Some (mode args); bus := attached M |}.

(** What [sys.exit] is handed when the help was asked for. *)
Definition help_exit : exit_arg := ExitStatus 0.


(** The help option comes before any word. *)
Definition asks_help (M : Machine) : Prop :=
  argparse None false (argv M) = HelpExit.


(** Everything succeeds on a machine. *)
Definition all_succeeds (M : Machine) (driver : bool) : Prop :=
  ∃ args, argparse None false (argv M) = Parsed args ∧
          backend M = None ∧ driver_query M = None ∧
          succeeds (view M args) driver.

(** The course of the script on a machine: how it stops before the
    kernel driver is looked at, or else that it goes on as the run of
    the host the machine comes to. *)
Inductive course (M : Machine) (b : bool) : outcome unit * World → Prop :=
| course_not_root :
    uid M ≠ 0%Z →
    course M b (Exited not_root, stuck b [geteuid_call])
| course_help :
    uid M = 0%Z → asks_help M →
    course M b (Exited help_exit, stuck b [geteuid_call; parse_args_call])
| course_usage :
    uid M = 0%Z → argparse None false (argv M) = UsageError →
    course M b (Exited usage_error, stuck b [geteuid_call; parse_args_call])
| course_no_backend args e :
    uid M = 0%Z → argparse None false (argv M) = Parsed args →
    backend M = Some e →
    course M b
      (Raised e,
       stuck b [geteuid_call; parse_args_call; find_call 0x041e 0x3130])
| course_no_query args dev i e :
    argparse None false (argv M) = Parsed args → backend M = None →
    preconditions (view M args) (mode args) dev i →
    driver_query M = Some e →
    course M b (Raised e, stuck b (preamble i))
| course_plain args :
    uid M = 0%Z → argparse None false (argv M) = Parsed args →
    backend M = None →
    (driver_query M = None ∨
     ∀ dev i, ¬ preconditions (view M args) (mode args) dev i) →
    course M b (run (view M args) b).

(** Machines for the examples. *)
Definition help_machine : Machine :=
  {| uid := 0; argv := [HelpFlag]; backend := None;
     attached := [dongle 65 None]; driver_query := None |}.

Definition no_query_machine : Machine :=
  {| uid := 0; argv := [Word "hq"]; backend := None;
     attached := [dongle 65 None]; driver_query := Some busy |}.

(** A dongle whose first interface has no endpoint. *)
Definition bare_dongle : Device :=
  {| idVendor := 0x041e; idProduct := 0x3130;
     active_configuration :=
       inr {| interfaces := [[ {| bInterfaceNumber := 3; endpoints := [] |} ]] |};
     detach_reply := None;
     ctrl_transfer_reply := inr 65%Z;
     attach_reply := None |}.

(** Some other device. *)
Definition keyboard : Device :=
  {| idVendor := 0x046d; idProduct := 0xc31c;
     active_configuration := inr {| interfaces := [[hid_interface]] |};
     detach_reply := None;
     ctrl_transfer_reply := inr 0%Z;
     attach_reply := None |}.

(** * Properties *)

(** ** Tactics *)

Ltac unfold_script :=
  unfold run, calls, exit_code, main, script, switch, ensure_root, find_device,
    obtain_interface, detach_if_necessary, send_control_transfer,
    reattach_if_detached, geteuid, parse_args, usb_core_find,
    get_active_configuration, cfg_getitem, intf_getitem,
    is_kernel_driver_active, detach_kernel_driver, attach_kernel_driver,
    ctrl_transfer, dispose_resources, print, try_except, reply, reply_unit,
    raise, sys_exit, call, modify, get_kernel_driver, Exception,
    usb_core_USBError, boot in *;
  unfold mbind, py_bind, mret, py_ret in *.

Ltac reduce_world :=
  cbn [fst snd trace kernel_driver released log set_kernel_driver
       set_released exit_status cls strerror mode app] in *.

(** Split a membership hypothesis on an explicit list into its cases. *)
Ltac members H :=
  repeat first
    [ apply elem_of_app in H as [H | H]
    | apply elem_of_cons in H as [H | H]
    | apply elem_of_nil in H; contradiction ].

(** ** Two runs, start to end *)

Example run_hq_driver_bound :
  run (host_of (Some "hq") (dongle 65 None)) true =
    (Val tt,
     {| kernel_driver := true; released := true;
        trace :=
          [geteuid_call; parse_args_call; find_call 0x041e 0x3130;
           get_active_configuration_call; is_kernel_driver_active_call 3;
           detach_kernel_driver_call 3;
           print_call "Switching to AptX Adaptive High Quality mode...";
           ctrl_transfer_call 0x21 0x09 0x203 0x00 (payload "hq");
           print_call "Mode switch successful.";
           attach_kernel_driver_call 3; dispose_resources_call] |}).
Proof. reflexivity. Qed.

Example run_ll_short_transfer :
  run (host_of (Some "ll") (dongle 64 None)) false =
    (Exited (ExitFmt "Failed to send control transfer: "
               (Exn USBError "Incomplete control transfer.")),
     {| kernel_driver := false; released := false;
        trace :=
          [geteuid_call; parse_args_call; find_call 0x041e 0x3130;
           get_active_configuration_call; is_kernel_driver_active_call 3;
           print_call "Switching to AptX Adaptive Low Latency mode...";
           ctrl_transfer_call 0x21 0x09 0x203 0x00 (payload "ll")] |}).
Proof. reflexivity. Qed.

(** ** The payload *)

Lemma select_data (m : string) : (select m).1 = data_hq ∨ (select m).1 = data_ll.
Proof. unfold select. case_bool_decide; [left | right]; reflexivity. Qed.

Lemma len_pad (data : list Z) : (len data ≤ 65)%Z → len (pad data) = 65%Z.
Proof.
  unfold pad, zeros, len. rewrite length_app, length_replicate. lia.
Qed.

Lemma len_payload (m : string) : len (payload m) = 65%Z.
Proof.
  unfold payload. apply len_pad.
  destruct (select_data m) as [-> | ->]; vm_compute; discriminate.
Qed.

Lemma choices_spec (m : string) : m ∈ choices ↔ m = "hq" ∨ m = "ll".
Proof. unfold choices. rewrite !elem_of_cons, elem_of_nil. tauto. Qed.

(** C1: for mode [hq] the payload is 03 5a 6b 03 0a 03 40 followed by 58
    zero bytes, for mode [ll] it is 03 5a 6b 03 0a 03 20 followed by 58
    zero bytes, and both payloads are 65 bytes long. *)
Theorem payload_bytes :
  payload "hq" = [0x03; 0x5a; 0x6b; 0x03; 0x0a; 0x03; 0x40]%Z ++ replicate 58 0%Z ∧
  payload "ll" = [0x03; 0x5a; 0x6b; 0x03; 0x0a; 0x03; 0x20]%Z ++ replicate 58 0%Z ∧
  length (payload "hq") = 65 ∧
  length (payload "ll") = 65.
Proof. repeat split; reflexivity. Qed.

(** ** From the top of the script to the switch *)

Lemma obtain_interface_retrieved (dev : Device) (w : World) :
  obtain_interface dev w =
    match retrieved dev with
    | inl e =>
        (Exited (ExitFmt "Failed to retrieve the device configuration: " e),
         log get_active_configuration_call w)
    | inr i => (Val i, log get_active_configuration_call w)
    end.
Proof.
  unfold retrieved. unfold_script.
  destruct (active_configuration dev) as [e | cfg]; [reflexivity |].
  destruct (option_bind _ _ _ _) as [intf |]; [| reflexivity].
  destruct (endpoints intf !! 0%nat); reflexivity.
Qed.

(** The script up to the switch, on any machine. *)
Ltac unfold_preamble :=
  unfold script, ensure_root, geteuid, parse_args, find_device, usb_core_find,
    reply_unit, call, sys_exit, raise;
  unfold mbind, py_bind, mret, py_ret.

Lemma not_zero_false : bool_decide (0%Z ≠ 0%Z) = false.
Proof. apply bool_decide_eq_false_2. intros Hne. apply Hne. reflexivity. Qed.

Lemma script_not_root (M : Machine) (w : World) :
  uid M ≠ 0%Z →
  script M w = (Exited not_root, log geteuid_call w).
Proof.
  intros Hroot. unfold_preamble.
  rewrite (bool_decide_eq_true_2 _ Hroot). reflexivity.
Qed.

Lemma script_help (M : Machine) (w : World) :
  uid M = 0%Z → argparse None false (argv M) = HelpExit →
  script M w = (Exited help_exit, log parse_args_call (log geteuid_call w)).
Proof.
  intros Hroot Hparse. unfold_preamble.
  rewrite Hroot, not_zero_false, Hparse. reflexivity.
Qed.

Lemma script_usage (M : Machine) (w : World) :
  uid M = 0%Z → argparse None false (argv M) = UsageError →
  script M w = (Exited usage_error, log parse_args_call (log geteuid_call w)).
Proof.
  intros Hroot Hparse. unfold_preamble.
  rewrite Hroot, not_zero_false, Hparse. reflexivity.
Qed.

Lemma script_no_backend (M : Machine) (args : Namespace) (e : exn) (w : World) :
  uid M = 0%Z → argparse None false (argv M) = Parsed args →
  backend M = Some e →
  script M w =
    (Raised e,
     log (find_call 0x041e 0x3130) (log parse_args_call (log geteuid_call w))).
Proof.
  intros Hroot Hparse Hbackend. unfold_preamble.
  rewrite Hroot, not_zero_false, Hparse, Hbackend. reflexivity.
Qed.

Lemma script_not_found (M : Machine) (args : Namespace) (w : World) :
  uid M = 0%Z → argparse None false (argv M) = Parsed args →
  backend M = None → enumerate (attached M) 0x041e 0x3130 = None →
  script M w =
    (Exited not_found,
     log (find_call 0x041e 0x3130) (log parse_args_call (log geteuid_call w))).
Proof.
  intros Hroot Hparse Hbackend Hfound. unfold_preamble.
  rewrite Hroot, not_zero_false, Hparse, Hbackend, Hfound. reflexivity.
Qed.

Lemma script_configuration_error (M : Machine) (args : Namespace)
    (dev : Device) (e : exn) (w : World) :
  uid M = 0%Z → argparse None false (argv M) = Parsed args →
  backend M = None → enumerate (attached M) 0x041e 0x3130 = Some dev →
  retrieved dev = inl e →
  script M w = (Exited (failed_configuration e), preconditions_passed w).
Proof.
  intros Hroot Hparse Hbackend Hfound Hintf. unfold_preamble.
  rewrite Hroot, not_zero_false, Hparse, Hbackend, Hfound.
  rewrite obtain_interface_retrieved, Hintf. reflexivity.
Qed.

Lemma script_switch (M : Machine) (args : Namespace) (dev : Device) (i : Z)
    (w : World) :
  uid M = 0%Z → argparse None false (argv M) = Parsed args →
  backend M = None → enumerate (attached M) 0x041e 0x3130 = Some dev →
  retrieved dev = inr i →
  script M w = switch M dev i (mode args) (preconditions_passed w).
Proof.
  intros Hroot Hparse Hbackend Hfound Hintf. unfold_preamble.
  rewrite Hroot, not_zero_false, Hparse, Hbackend, Hfound.
  rewrite obtain_interface_retrieved, Hintf. reflexivity.
Qed.

(** The command line of a host. *)
Lemma argparse_plain (h : Host) (m : string) :
  argv_mode h = Some m → m ∈ choices →
  argparse None false (argv (plain h)) = Parsed {| mode := m |}.
Proof.
  intros Hmode Hchoice. unfold plain. cbn [argv]. rewrite Hmode.
  cbn [argparse]. rewrite (bool_decide_eq_true_2 _ Hchoice). reflexivity.
Qed.

Lemma argparse_plain_invalid (h : Host) :
  invalid_mode (argv_mode h) →
  argparse None false (argv (plain h)) = UsageError.
Proof.
  intros Hmode. unfold plain. cbn [argv].
  destruct (argv_mode h) as [tok |]; [| reflexivity].
  cbn [argparse]. rewrite bool_decide_eq_false_2; [reflexivity |].
  unfold choices. rewrite !elem_of_cons, elem_of_nil. cbn in Hmode. tauto.
Qed.

Lemma main_switch (h : Host) (m : string) (dev : Device) (i : Z) (w : World) :
  preconditions h m dev i →
  main h w = switch (plain h) dev i m (preconditions_passed w).
Proof.
  intros [Hroot Hmode Hchoice Hfound Hintf]. unfold main.
  by rewrite (script_switch (plain h) {| mode := m |} dev i w Hroot
                (argparse_plain _ _ Hmode Hchoice) eq_refl Hfound Hintf).
Qed.

(** ** The control transfer *)

Lemma send_control_transfer_payload (dev : Device) (m : string) (w : World) :
  send_control_transfer dev (payload m) w =
    let w' := log (ctrl_transfer_call 0x21 0x09 0x203 0x00 (payload m)) w in
    match ctrl_transfer_reply dev with
    | inl e =>
        if bool_decide (cls e = USBError)
        then (Exited (failed_transfer e), w') else (Raised e, w')
    | inr n =>
        if bool_decide (n = 65%Z)
        then (Val tt, log (print_call success_line) w')
        else (Exited (failed_transfer incomplete), w')
    end.
Proof.
  unfold send_control_transfer, ctrl_transfer, print, try_except, reply, raise,
    sys_exit, call, usb_core_USBError.
  unfold mbind, py_bind, mret, py_ret. rewrite len_payload.
  destruct (ctrl_transfer_reply dev) as [e | n]; cbn zeta.
  - case_bool_decide; reflexivity.
  - repeat case_bool_decide; try reflexivity; contradiction.
Qed.

Lemma switch_payload (M : Machine) (dev : Device) (i : Z) (m : string) (w : World) :
  switch M dev i m w =
    (reattach ← detach_if_necessary M dev i;
     print (select m).2 ;;
     send_control_transfer dev (payload m) ;;
     reattach_if_detached dev i reattach ;;
     dispose_resources dev) w.
Proof. unfold switch, payload. destruct (select m); reflexivity. Qed.

Ltac unfold_switch :=
  unfold detach_if_necessary, reattach_if_detached, is_kernel_driver_active,
    detach_kernel_driver, attach_kernel_driver, dispose_resources, print,
    try_except, reply_unit, raise, sys_exit, call, modify, get_kernel_driver,
    usb_core_USBError in *;
  unfold mbind, py_bind, mret, py_ret in *.

(** The run of a host on which the script reaches the control transfer,
    written out up to that call. *)
Lemma run_reaches_transfer (h : Host) (b : bool) (m : string) (dev : Device) (i : Z) :
  reaches_transfer h b m dev i →
  run h b =
    (send_control_transfer dev (payload m) ;;
     reattach_if_detached dev i b ;;
     dispose_resources dev)
      {| kernel_driver := false; released := false;
         trace := preamble i ++
                  (if b then [detach_kernel_driver_call i] else []) ++
                  [print_call (select m).2] |}.
Proof.
  intros [Hpre Hdetach]. unfold run. rewrite (main_switch _ _ _ _ _ Hpre).
  rewrite switch_payload. unfold preconditions_passed, boot.
  destruct b.
  - specialize (Hdetach eq_refl).
    unfold detach_if_necessary, is_kernel_driver_active, detach_kernel_driver,
      print, try_except, reply_unit, call, modify, get_kernel_driver.
    unfold mbind at 1 2 3 4 5 6 7 8, py_bind, mret, py_ret.
    cbn [log kernel_driver released trace plain driver_query].
    rewrite Hdetach. reflexivity.
  - reflexivity.
Qed.

Lemma select_line (m : string) : (select m).2 ≠ success_line.
Proof. unfold select. case_bool_decide; discriminate. Qed.

(** Every way the script can end once it has reached the control
    transfer, with the world it leaves behind. *)
Lemma run_from_transfer (h : Host) (b : bool) (m : string) (dev : Device) (i : Z) :
  reaches_transfer h b m dev i →
  run h b =
    let sent := before_transfer i b m ++
                [ctrl_transfer_call 0x21 0x09 0x203 0x00 (payload m)] in
    match ctrl_transfer_reply dev with
    | inl e =>
        (caught_or_raised failed_transfer e, stuck false sent)
    | inr n =>
        if bool_decide (n = 65%Z) then
          let switched := sent ++ [print_call success_line] in
          if b then
            match attach_reply dev with
            | Some e =>
                (caught_or_raised failed_reattach e,
                 stuck false (switched ++ [attach_kernel_driver_call i]))
            | None =>
                (Val tt,
                 {| kernel_driver := true; released := true;
                    trace := (switched ++ [attach_kernel_driver_call i]) ++
                             [dispose_resources_call] |})
            end
          else
            (Val tt,
             {| kernel_driver := false; released := true;
                trace := switched ++ [dispose_resources_call] |})
        else (Exited (failed_transfer incomplete), stuck false sent)
    end.
Proof.
  intros Hreach. rewrite (run_reaches_transfer _ _ _ _ _ Hreach).
  unfold before_transfer, caught_or_raised. unfold mbind at 1, py_bind.
  rewrite send_control_transfer_payload. cbn zeta.
  destruct (ctrl_transfer_reply dev) as [e | n].
  - case_bool_decide; reflexivity.
  - case_bool_decide; [| reflexivity].
    unfold_switch. destruct b; [| reflexivity].
    destruct (attach_reply dev) as [e |]; [| reflexivity].
    reduce_world. case_bool_decide; reflexivity.
Qed.

Lemma before_transfer_no_success (i : Z) (b : bool) (m : string) :
  print_call success_line ∉ before_transfer i b m.
Proof.
  pose proof (select_line m) as Hline. unfold before_transfer, preamble.
  intros Hin. destruct b; members Hin; simplify_eq.
Qed.

(** C3: once the script reaches the control transfer, it reports the
    step as a fatal failure exactly when the transport raises its error
    ([USBError]) or returns a count other than 65; a wrong count without
    any exception is reported, and a count of exactly 65 without an
    exception counts as success: the success line is printed. *)
Theorem transfer_failure_reported (h : Host) (b : bool) (m : string)
    (dev : Device) (i : Z) :
  reaches_transfer h b m dev i →
  ((∃ e, (run h b).1 = Exited (failed_transfer e)) ↔ transfer_reported dev) ∧
  (∀ n, ctrl_transfer_reply dev = inr n → n ≠ 65%Z →
     (run h b).1 = Exited (failed_transfer incomplete) ∧
     exit_code (run h b) = 1%Z) ∧
  (print_call success_line ∈ calls (run h b) ↔
     ctrl_transfer_reply dev = inr 65%Z).
Proof.
  intros Hreach. rewrite (run_from_transfer _ _ _ _ _ Hreach).
  pose proof (before_transfer_no_success i b m) as Hbefore.
  unfold transfer_reported, calls, exit_code, caught_or_raised, stuck. cbn zeta.
  destruct (ctrl_transfer_reply dev) as [e | n].
  - split_and!.
    + case_bool_decide; cbn [fst]; split;
        [ done | eauto | intros [? ?]; discriminate | contradiction ].
    + discriminate.
    + split; [| discriminate]. cbn [snd trace].
      rewrite elem_of_app, list_elem_of_singleton.
      intros [? | ?]; [contradiction | discriminate].
  - case_bool_decide as Hn.
    + subst n. split_and!.
      * split; [| intros Hne; exfalso; apply Hne; reflexivity].
        intros [e He]. destruct b; [destruct (attach_reply dev) |];
          repeat case_bool_decide; discriminate.
      * intros n [= <-] Hne. contradiction.
      * split; [reflexivity |]. intros _.
        destruct b; [destruct (attach_reply dev) |]; cbn [snd trace];
          rewrite !elem_of_app, !list_elem_of_singleton; tauto.
    + split_and!.
      * split; eauto.
      * intros n' [= <-] _. split; reflexivity.
      * split; [| intros [= ->]; contradiction].
        cbn [snd trace]. rewrite elem_of_app, list_elem_of_singleton.
        intros [? | ?]; [contradiction | discriminate].
Qed.

(** ** The early exits *)

Lemma run_not_root (h : Host) (b : bool) :
  euid h ≠ 0%Z →
  run h b = (Exited not_root, stuck b [geteuid_call]).
Proof.
  intros Hroot. unfold run, main.
  by rewrite (script_not_root (plain h) _ Hroot).
Qed.

Lemma invalid_mode_choices (tok : string) :
  invalid_mode (Some tok) ↔ tok ∉ choices.
Proof. rewrite choices_spec. cbn. tauto. Qed.

Lemma run_usage (h : Host) (b : bool) :
  euid h = 0%Z → invalid_mode (argv_mode h) →
  run h b = (Exited usage_error, stuck b [geteuid_call; parse_args_call]).
Proof.
  intros Hroot Hmode. unfold run, main.
  by rewrite (script_usage (plain h) _ Hroot (argparse_plain_invalid _ Hmode)).
Qed.

Lemma run_not_found (h : Host) (b : bool) (m : string) :
  euid h = 0%Z → argv_mode h = Some m → m ∈ choices →
  enumerate (bus h) 0x041e 0x3130 = None →
  run h b =
    (Exited not_found,
     stuck b [geteuid_call; parse_args_call; find_call 0x041e 0x3130]).
Proof.
  intros Hroot Hmode Hchoice Hfound. unfold run, main.
  by rewrite (script_not_found (plain h) _ _ Hroot
                (argparse_plain _ _ Hmode Hchoice) eq_refl Hfound).
Qed.

Lemma run_configuration_error (h : Host) (b : bool) (m : string)
    (dev : Device) (e : exn) :
  euid h = 0%Z → argv_mode h = Some m → m ∈ choices →
  enumerate (bus h) 0x041e 0x3130 = Some dev →
  retrieved dev = inl e →
  run h b =
    (Exited (failed_configuration e),
     stuck b [geteuid_call; parse_args_call; find_call 0x041e 0x3130;
              get_active_configuration_call]).
Proof.
  intros Hroot Hmode Hchoice Hfound Hintf. unfold run, main.
  by rewrite (script_configuration_error (plain h) _ _ _ _ Hroot
                (argparse_plain _ _ Hmode Hchoice) eq_refl Hfound Hintf).
Qed.

Lemma run_detach_error (h : Host) (m : string) (dev : Device) (i : Z) (e : exn) :
  preconditions h m dev i → detach_reply dev = Some e →
  run h true =
    (caught_or_raised failed_detach e,
     stuck true (preamble i ++ [detach_kernel_driver_call i])).
Proof.
  intros Hpre Hdetach. unfold run. rewrite (main_switch _ _ _ _ _ Hpre).
  rewrite switch_payload. unfold_switch. reduce_world.
  cbn [plain driver_query]. rewrite Hdetach.
  unfold caught_or_raised. case_bool_decide; reflexivity.
Qed.

(** Every run either fails early or reaches the control transfer. *)
Lemma run_cases (h : Host) (b : bool) :
  (∃ c, fails h b c ∧ early c = true) ∨ ∃ m dev i, reaches_transfer h b m dev i.
Proof.
  destruct (decide (euid h = 0%Z)) as [Hroot | Hroot];
    [| left; exists Privilege; split; [by constructor | done]].
  destruct (argv_mode h) as [m |] eqn:Hmode;
    [| left; exists Usage; split; [constructor; [done | by rewrite Hmode] | done]].
  destruct (decide (m ∈ choices)) as [Hchoice | Hchoice].
  2: { left. exists Usage. split; [| done].
       constructor; [done |]. rewrite Hmode. by apply invalid_mode_choices. }
  destruct (enumerate (bus h) 0x041e 0x3130) as [dev |] eqn:Hfound;
    [| left; exists DeviceNotFound; split; [by econstructor | done]].
  destruct (retrieved dev) as [e | i] eqn:Hintf;
    [left; exists ConfigurationRetrieval; split; [by econstructor | done] |].
  assert (preconditions h m dev i) as Hpre by (by constructor).
  destruct b; [| right; exists m, dev, i; split; [done | discriminate]].
  destruct (detach_reply dev) as [e |] eqn:Hdetach;
    [left; exists DriverDetach; split; [by econstructor | done] |].
  right. exists m, dev, i. by split.
Qed.

(** An early failure: the calls are an initial part of the checks, the
    run does not end normally, and the world is as it was found. *)
Lemma early_failure (h : Host) (b : bool) (c : failure_class) :
  fails h b c → early c = true →
  ∃ arg_or_exn i k,
    run h b = (arg_or_exn, stuck b (take k (checks i))) ∧
    (k ≤ 6)%nat ∧
    exit_code (run h b) ≠ 0%Z.
Proof.
  intros Hfails Hearly.
  destruct Hfails as [Hroot | Hroot Hmode | m Hroot Hmode Hchoice Hfound
    | m dev e Hroot Hmode Hchoice Hfound Hintf | m dev i e Hpre -> Hdetach
    | | ]; try discriminate.
  - rewrite (run_not_root _ _ Hroot). exists (Exited not_root), 0%Z, 1%nat.
    split_and!; [reflexivity | lia | discriminate].
  - rewrite (run_usage _ _ Hroot Hmode). exists (Exited usage_error), 0%Z, 2%nat.
    split_and!; [reflexivity | lia | discriminate].
  - rewrite (run_not_found _ _ _ Hroot Hmode Hchoice Hfound).
    exists (Exited not_found), 0%Z, 3%nat.
    split_and!; [reflexivity | lia | discriminate].
  - rewrite (run_configuration_error _ _ _ _ _ Hroot Hmode Hchoice Hfound Hintf).
    exists (Exited (failed_configuration e)), 0%Z, 4%nat.
    split_and!; [reflexivity | lia | discriminate].
  - rewrite (run_detach_error _ _ _ _ _ Hpre Hdetach).
    exists (caught_or_raised failed_detach e), i, 6%nat.
    split_and!; [reflexivity | lia |].
    unfold caught_or_raised, exit_code. case_bool_decide; discriminate.
Qed.

(** ** Case analysis on a run *)

(** Case analysis on a run that reaches the control transfer: on the
    driver, the reply to the transfer and the reply to the reattach. *)
Ltac transfer_cases Hreach :=
  rewrite (run_from_transfer _ _ _ _ _ Hreach);
  unfold caught_or_raised, stuck, before_transfer, preamble; cbn zeta;
  try match goal with b : bool |- _ => destruct b end;
  (destruct (ctrl_transfer_reply _) as [?e | ?n] eqn:?Hreply;
   [ case_bool_decide
   | case_bool_decide;
     [ try (destruct (attach_reply _) as [?e |] eqn:?Hattach; [case_bool_decide |])
     | ] ]);
  unfold calls, exit_code;
  cbn [fst snd trace released kernel_driver exit_status app].

(** Refute the membership [Hin] of a call in an explicit trace. *)
Ltac absent Hin :=
  unfold checks, preamble in Hin; cbn [app] in Hin; members Hin; discriminate.

(** ** The sample hosts reach the control transfer *)

Lemma sample_reaches (m : string) (written : Z) (reattach : option exn) (b : bool) :
  m ∈ choices →
  reaches_transfer (host_of (Some m) (dongle written reattach)) b m
    (dongle written reattach) 3.
Proof.
  intros Hchoice. split; [| reflexivity].
  constructor; [reflexivity | reflexivity | exact Hchoice | reflexivity | reflexivity].
Qed.

Lemma hq_choice : "hq" ∈ choices.
Proof. apply choices_spec. left. reflexivity. Qed.

Lemma ll_choice : "ll" ∈ choices.
Proof. apply choices_spec. right. reflexivity. Qed.

Lemma sample_preconditions (m : string) (dev : Device) :
  m ∈ choices → idVendor dev = 0x041e%Z → idProduct dev = 0x3130%Z →
  active_configuration dev = inr {| interfaces := [[hid_interface]] |} →
  preconditions (host_of (Some m) dev) m dev 3.
Proof.
  intros Hchoice Hvid Hpid Hcfg.
  constructor; [reflexivity | reflexivity | exact Hchoice | |].
  - unfold enumerate, host_of, bus, List.find.
    rewrite bool_decide_eq_true_2 by (split; assumption). reflexivity.
  - unfold retrieved. rewrite Hcfg. reflexivity.
Qed.

(** ** The one control transfer *)

Lemma transfers_app (l k : list event) :
  transfers (l ++ k) = transfers l ++ transfers k.
Proof. apply omap_app. Qed.

Lemma transfers_before (i : Z) (b : bool) (m : string) :
  transfers (before_transfer i b m) = [].
Proof. destruct b; reflexivity. Qed.

Lemma transfers_checks (i : Z) (k : nat) : transfers (take k (checks i)) = [].
Proof. do 6 (destruct k as [| k]; [reflexivity |]). destruct k; reflexivity. Qed.

Lemma transfers_reached (h : Host) (b : bool) (m : string) (dev : Device) (i : Z) :
  reaches_transfer h b m dev i →
  transfers (calls (run h b)) = [(0x21, 0x09, 0x203, 0x00, payload m)%Z].
Proof.
  intros Hreach. rewrite (run_from_transfer _ _ _ _ _ Hreach).
  unfold calls, stuck. cbn zeta.
  destruct (ctrl_transfer_reply dev) as [e | n]; [| case_bool_decide];
    [| destruct b; [destruct (attach_reply dev) |] |];
    cbn [snd trace]; rewrite !transfers_app, transfers_before; reflexivity.
Qed.

(** C2: a run issues at most one control transfer, and the one it
    issues has request type 0x21, request 0x09, value 0x203, index 0x00
    and the 65-byte payload of the mode on the command line; every run
    that gets past the checks issues it, whatever the mode. *)
Theorem single_control_transfer (h : Host) (b : bool) :
  (transfers (calls (run h b)) = [] ∨
   ∃ m, argv_mode h = Some m ∧ m ∈ choices ∧
        transfers (calls (run h b)) = [(0x21, 0x09, 0x203, 0x00, payload m)%Z] ∧
        length (payload m) = 65%nat) ∧
  (∀ m dev i, reaches_transfer h b m dev i →
     transfers (calls (run h b)) = [(0x21, 0x09, 0x203, 0x00, payload m)%Z]).
Proof.
  split; [| intros m dev i; apply transfers_reached].
  destruct (run_cases h b) as [(c & Hfails & Hearly) | (m & dev & i & Hreach)].
  - left. destruct (early_failure _ _ _ Hfails Hearly) as (r & i & k & -> & _).
    apply transfers_checks.
  - right. exists m. destruct Hreach as [Hpre Hdetach].
    split_and!; [apply Hpre | apply Hpre | by eapply transfers_reached |].
    pose proof (len_payload m) as Hlen. unfold len in Hlen. lia.
Qed.

Lemma single_control_transfer_witness :
  transfers (calls (run (host_of (Some "ll") (dongle 65 None)) true)) =
    [(0x21, 0x09, 0x203, 0x00, payload "ll")%Z].
Proof.
  apply (proj2 (single_control_transfer _ true) "ll" (dongle 65 None) 3%Z).
  apply sample_reaches, ll_choice.
Defined.

Lemma transfer_failure_reported_witness :
  (run (host_of (Some "hq") (dongle 64 None)) true).1 =
    Exited (failed_transfer incomplete) ∧
  exit_code (run (host_of (Some "hq") (dongle 64 None)) true) = 1%Z.
Proof.
  apply (proj1 (proj2 (transfer_failure_reported
                         (host_of (Some "hq") (dongle 64 None)) true "hq"
                         (dongle 64 None) 3%Z
                         (sample_reaches _ _ _ _ hq_choice))) 64%Z);
    [reflexivity | lia].
Defined.

(** ** The order of the checks *)

Ltac sorted_steps :=
  repeat first
    [ apply SSorted_nil
    | apply SSorted_cons
    | apply Forall_nil_2
    | apply Forall_cons_2; [lia |] ].

Lemma checks_sorted (i : Z) (k : nat) :
  StronglySorted lt (step <$> take k (checks i)).
Proof.
  do 6 (destruct k as [| k]; [cbn; sorted_steps |]).
  destruct k; cbn; sorted_steps.
Qed.

Lemma step_line (m : string) : step (print_call (select m).2) = 6%nat.
Proof.
  unfold step. rewrite (bool_decide_eq_false_2 _ (select_line m)). reflexivity.
Qed.

Lemma step_success : step (print_call success_line) = 8%nat.
Proof. unfold step. rewrite bool_decide_eq_true_2; reflexivity. Qed.

(** C5: the calls of every run follow the order of the script
    (privilege, arguments, enumeration, configuration, kernel driver,
    transfer, reattach, release), and a failed check ends the run on
    the spot: the calls made are those up to the failed check and
    nothing after it, so nothing touches the driver or the device once
    an earlier check has failed. *)
Theorem checks_in_order (h : Host) (b : bool) :
  StronglySorted lt (step <$> calls (run h b)) ∧
  (euid h ≠ 0%Z →
     run h b = (Exited not_root, stuck b [geteuid_call])) ∧
  (euid h = 0%Z → invalid_mode (argv_mode h) →
     run h b = (Exited usage_error, stuck b [geteuid_call; parse_args_call])) ∧
  (∀ m, euid h = 0%Z → argv_mode h = Some m → m ∈ choices →
     enumerate (bus h) 0x041e 0x3130 = None →
     run h b =
       (Exited not_found,
        stuck b [geteuid_call; parse_args_call; find_call 0x041e 0x3130])) ∧
  (∀ m dev e, euid h = 0%Z → argv_mode h = Some m → m ∈ choices →
     enumerate (bus h) 0x041e 0x3130 = Some dev → retrieved dev = inl e →
     run h b =
       (Exited (failed_configuration e),
        stuck b [geteuid_call; parse_args_call; find_call 0x041e 0x3130;
                 get_active_configuration_call])) ∧
  (∀ m dev i e, preconditions h m dev i → b = true →
     detach_reply dev = Some e →
     run h b =
       (caught_or_raised failed_detach e,
        stuck true [geteuid_call; parse_args_call; find_call 0x041e 0x3130;
                    get_active_configuration_call;
                    is_kernel_driver_active_call i;
                    detach_kernel_driver_call i])).
Proof.
  split_and!.
  - destruct (run_cases h b) as [(c & Hfails & Hearly) | (m & dev & i & Hreach)].
    + destruct (early_failure _ _ _ Hfails Hearly) as (r & i & k & -> & _).
      apply checks_sorted.
    + pose proof (step_line m) as Hline.
      pose proof step_success as Hsuccess.
      transfer_cases Hreach; cbn [fmap list_fmap];
        rewrite Hline, ?Hsuccess; cbn; sorted_steps.
  - apply run_not_root.
  - apply run_usage.
  - intros m. apply run_not_found.
  - intros m dev e. apply run_configuration_error.
  - intros m dev i e Hpre -> Hdetach. by eapply run_detach_error.
Qed.

Lemma checks_in_order_witness :
  run user_host true = (Exited not_root, stuck true [geteuid_call]) ∧
  run (host_of (Some "ll") locked_dongle) true =
    (caught_or_raised failed_detach busy,
     stuck true [geteuid_call; parse_args_call; find_call 0x041e 0x3130;
                 get_active_configuration_call;
                 is_kernel_driver_active_call 3;
                 detach_kernel_driver_call 3]).
Proof.
  split.
  - apply (proj1 (proj2 (checks_in_order user_host true))).
    cbn. lia.
  - apply (proj2 (proj2 (proj2 (proj2 (proj2
             (checks_in_order (host_of (Some "ll") locked_dongle) true)))))
           "ll" locked_dongle 3%Z busy).
    + apply sample_preconditions; [apply ll_choice | reflexivity ..].
    + reflexivity.
    + reflexivity.
Defined.

(** ** Reattaching the kernel driver *)

Lemma attach_not_in_checks (i j : Z) (k : nat) :
  attach_kernel_driver_call j ∉ take k (checks i).
Proof.
  intros Hin. apply elem_of_take in Hin as (n & Hin & _).
  apply list_elem_of_lookup_2 in Hin. absent Hin.
Qed.

(** C6: the driver is reattached exactly when it was bound at the start,
    was detached, and the transfer succeeded; with no driver bound at
    the start no reattach is attempted; a reattach comes after the
    transfer and its success line; and a failed reattach ends the run
    with status 1, through [sys.exit] with the reattach message when the
    failure is a [USBError]. *)
Theorem reattach_iff_detached (h : Host) (b : bool) :
  (∀ i, attach_kernel_driver_call i ∈ calls (run h b) ↔
        b = true ∧
        ∃ m dev, reaches_transfer h b m dev i ∧
                 ctrl_transfer_reply dev = inr 65%Z) ∧
  (b = false → ∀ i, attach_kernel_driver_call i ∉ calls (run h b)) ∧
  (∀ m dev i, reaches_transfer h b m dev i → b = true →
     ctrl_transfer_reply dev = inr 65%Z →
     ∃ l, calls (run h b) =
          before_transfer i true m ++
          [ctrl_transfer_call 0x21 0x09 0x203 0x00 (payload m);
           print_call success_line; attach_kernel_driver_call i] ++ l) ∧
  (∀ m dev i e, reaches_transfer h b m dev i → b = true →
     ctrl_transfer_reply dev = inr 65%Z → attach_reply dev = Some e →
     (run h b).1 = caught_or_raised failed_reattach e ∧
     (cls e = USBError → (run h b).1 = Exited (failed_reattach e)) ∧
     exit_code (run h b) = 1%Z).
Proof.
  assert (∀ i, attach_kernel_driver_call i ∈ calls (run h b) ↔
               b = true ∧
               ∃ m dev, reaches_transfer h b m dev i ∧
                        ctrl_transfer_reply dev = inr 65%Z) as Hiff.
  { intros i. split.
    - destruct (run_cases h b) as [(c & Hfails & Hearly) | (m & dev & j & Hreach)].
      + destruct (early_failure _ _ _ Hfails Hearly) as (r & j & k & -> & _).
        intros Hin. by apply attach_not_in_checks in Hin.
      + transfer_cases Hreach; intros Hin; members Hin; simplify_eq; eauto.
    - intros (-> & m & dev & Hreach & Hok).
      transfer_cases Hreach; simplify_eq; rewrite !elem_of_cons; tauto. }
  split_and!.
  - exact Hiff.
  - intros -> i Hin. apply Hiff in Hin as [? _]. discriminate.
  - intros m dev i Hreach -> Hok. unfold before_transfer, preamble.
    transfer_cases Hreach; simplify_eq; eexists; reflexivity.
  - intros m dev i e Hreach -> Hok He.
    transfer_cases Hreach; simplify_eq; repeat case_bool_decide; done.
Qed.

Lemma reattach_iff_detached_witness :
  (run (host_of (Some "hq") (dongle 65 (Some busy))) true).1 =
    Exited (failed_reattach busy) ∧
  (∀ i, attach_kernel_driver_call i ∉
          calls (run (host_of (Some "hq") (dongle 65 None)) false)).
Proof.
  split.
  - apply (proj2 (proj2 (proj2 (reattach_iff_detached
             (host_of (Some "hq") (dongle 65 (Some busy))) true)))
           "hq" (dongle 65 (Some busy)) 3%Z busy);
      [apply sample_reaches, hq_choice | reflexivity ..].
  - apply (proj1 (proj2 (reattach_iff_detached
             (host_of (Some "hq") (dongle 65 None)) false))).
    reflexivity.
Defined.

(** ** Exit status of a run *)

Lemma fails_nonzero (h : Host) (b : bool) (c : failure_class) :
  fails h b c → exit_code (run h b) ≠ 0%Z.
Proof.
  intros Hfails. destruct (early c) eqn:Hearly.
  - by destruct (early_failure _ _ _ Hfails Hearly) as (r & i & k & _ & _ & Hcode).
  - destruct Hfails as [| | | | | m dev i Hreach Hfail | m dev i e Hreach Hok -> He];
      try discriminate.
    + unfold transfer_fails in Hfail.
      transfer_cases Hreach; rewrite ?Hreply in Hfail; try discriminate;
        subst; contradiction.
    + transfer_cases Hreach; simplify_eq; discriminate.
Qed.

Lemma succeeds_or_fails (h : Host) (b : bool) :
  succeeds h b ∨ ∃ c, fails h b c.
Proof.
  destruct (run_cases h b) as [(c & Hfails & _) | (m & dev & i & Hreach)];
    [right; by exists c |].
  destruct (ctrl_transfer_reply dev) as [e | n] eqn:Hreply.
  { right. exists Transfer. econstructor; [done |].
    unfold transfer_fails. by rewrite Hreply. }
  destruct (decide (n = 65%Z)) as [-> | Hn].
  2: { right. exists Transfer. econstructor; [done |].
       unfold transfer_fails. by rewrite Hreply. }
  destruct b.
  - destruct (attach_reply dev) as [e |] eqn:Hattach.
    + right. exists DriverReattach. by econstructor.
    + left. exists m, dev, i. done.
  - left. exists m, dev, i. split_and!; [done | done | discriminate].
Qed.

(** ** A failed reattach *)

(** C10: when the transfer succeeds (65 bytes, success line printed)
    and the reattach then fails, the run ends with status 1; the
    transfer is the only one made, nothing follows the failed reattach,
    so the switch of mode is not undone. *)
Theorem failed_reattach_after_switch (h : Host) (m : string) (dev : Device)
    (i : Z) (e : exn) :
  reaches_transfer h true m dev i →
  ctrl_transfer_reply dev = inr 65%Z → attach_reply dev = Some e →
  exit_code (run h true) = 1%Z ∧
  calls (run h true) =
    before_transfer i true m ++
    [ctrl_transfer_call 0x21 0x09 0x203 0x00 (payload m);
     print_call success_line; attach_kernel_driver_call i] ∧
  transfers (calls (run h true)) = [(0x21, 0x09, 0x203, 0x00, payload m)%Z] ∧
  released (run h true).2 = false ∧
  kernel_driver (run h true).2 = false.
Proof.
  intros Hreach Hok He.
  pose proof (transfers_reached _ _ _ _ _ Hreach) as Hone.
  split_and!; [| | exact Hone | |]; clear Hone.
  all: transfer_cases Hreach; simplify_eq; reflexivity.
Qed.

Lemma failed_reattach_after_switch_witness :
  exit_code (run (host_of (Some "ll") (dongle 65 (Some busy))) true) = 1%Z ∧
  transfers (calls (run (host_of (Some "ll") (dongle 65 (Some busy))) true)) =
    [(0x21, 0x09, 0x203, 0x00, payload "ll")%Z].
Proof.
  split;
    apply (failed_reattach_after_switch
             (host_of (Some "ll") (dongle 65 (Some busy))) "ll"
             (dongle 65 (Some busy)) 3%Z busy
             (sample_reaches _ _ _ _ ll_choice) eq_refl eq_refl).
Defined.

(** * Further properties of the script *)

(** ** Padding *)

(** X1: data of at most 65 bytes is padded to exactly 65: the data
    comes first, unchanged, and every byte after it is zero. *)
Theorem pad_short (data : list Z) :
  (len data ≤ 65)%Z →
  length (pad data) = 65%nat ∧
  take (length data) (pad data) = data ∧
  drop (length data) (pad data) = replicate (65 - length data) 0%Z.
Proof.
  unfold pad, zeros, len. intros Hlen.
  replace (Z.to_nat (65 - Z.of_nat (length data))) with (65 - length data)%nat by lia.
  split_and!.
  - rewrite length_app, length_replicate. lia.
  - apply take_app_length.
  - apply drop_app_length.
Qed.

Lemma pad_short_witness :
  take 2 (pad [7; 9]%Z) = [7; 9]%Z ∧ drop 2 (pad [7; 9]%Z) = replicate 63 0%Z.
Proof.
  assert (len [7; 9]%Z ≤ 65)%Z as Hlen by (unfold len; simpl; lia).
  split; apply (pad_short [7; 9]%Z Hlen).
Defined.

(** X2: padding never shortens: the length of the result is the larger
    of 65 and the length of the data, the data is always its initial
    part, and data of 65 bytes or more comes back as it is. *)
Theorem pad_never_truncates (data : list Z) :
  len (pad data) = Z.max 65 (len data) ∧
  data `prefix_of` pad data ∧
  ((65 ≤ len data)%Z → pad data = data).
Proof.
  unfold pad, zeros, len. split_and!.
  - rewrite length_app, length_replicate. lia.
  - by apply prefix_app_r.
  - intros Hlen.
    replace (Z.to_nat (65 - Z.of_nat (length data))) with 0%nat by lia.
    apply app_nil_r.
Qed.

Lemma pad_never_truncates_witness :
  pad (replicate 70 1%Z) = replicate 70 1%Z.
Proof.
  apply (pad_never_truncates (replicate 70 1%Z)).
  unfold len. rewrite length_replicate. lia.
Defined.

(** ** Helpers: the early exits one by one *)

(** Case analysis on an early failure, with the run written out. *)
Ltac early_cases Hfails Hearly :=
  destruct Hfails as
    [ Hroot | Hroot Hmode | m Hroot Hmode Hchoice Hfound
    | m dev e Hroot Hmode Hchoice Hfound Hintf | m dev i e Hpre -> Hdetach
    | | ];
  [ rewrite (run_not_root _ _ Hroot)
  | rewrite (run_usage _ _ Hroot Hmode)
  | rewrite (run_not_found _ _ _ Hroot Hmode Hchoice Hfound)
  | rewrite (run_configuration_error _ _ _ _ _ Hroot Hmode Hchoice Hfound Hintf)
  | rewrite (run_detach_error _ _ _ _ _ Hpre Hdetach)
  | discriminate Hearly
  | discriminate Hearly ].

Lemma not_USBError (e : exn) : cls e ≠ USBError → cls e = OtherException.
Proof. destruct (cls e); [contradiction | reflexivity]. Qed.

Lemma select_hq : select "hq" = (data_hq, hq_line).
Proof. reflexivity. Qed.

Lemma select_ll : select "ll" = (data_ll, ll_line).
Proof. reflexivity. Qed.

(** ** The kernel driver at exit *)

(** X3: a run that ends with status 0 leaves the kernel driver as it
    found it; a run never binds a driver that was not bound; and the
    driver is left in another state than at the start exactly when it
    was detached and the transfer or the reattach then failed. *)
Theorem driver_state_at_exit (h : Host) (b : bool) :
  (exit_code (run h b) = 0%Z → kernel_driver (run h b).2 = b) ∧
  (b = false → kernel_driver (run h b).2 = false) ∧
  (kernel_driver (run h b).2 ≠ b ↔
     b = true ∧
     ∃ m dev i, reaches_transfer h b m dev i ∧
       (transfer_fails dev ∨
        (ctrl_transfer_reply dev = inr 65%Z ∧ ∃ e, attach_reply dev = Some e))).
Proof.
  split_and!; [| | split].
  - destruct (run_cases h b) as [(c & Hfails & Hearly) | (m & dev & i & Hreach)].
    + by destruct (early_failure _ _ _ Hfails Hearly) as (r & i & k & -> & _).
    + transfer_cases Hreach; intros; first [reflexivity | discriminate].
  - intros ->.
    destruct (run_cases h false) as [(c & Hfails & Hearly) | (m & dev & i & Hreach)].
    + by destruct (early_failure _ _ _ Hfails Hearly) as (r & i & k & -> & _).
    + transfer_cases Hreach; reflexivity.
  - destruct (run_cases h b) as [(c & Hfails & Hearly) | (m & dev & i & Hreach)].
    + destruct (early_failure _ _ _ Hfails Hearly) as (r & i & k & -> & _).
      intros Hne. contradiction.
    + pose proof Hreach as Hkeep. unfold transfer_fails.
      transfer_cases Hreach; intros Hne; try contradiction.
      all: split; [reflexivity |]; exists m, dev, i; split; [exact Hkeep |].
      all: rewrite Hreply; subst; eauto.
  - intros (-> & m & dev & i & Hreach & Hfail). unfold transfer_fails in Hfail.
    transfer_cases Hreach; try discriminate.
    all: destruct Hfail as [Hfail | (Hok & e' & He')]; simplify_eq.
Qed.

Lemma driver_state_at_exit_witness :
  kernel_driver (run (host_of (Some "hq") (dongle 65 None)) true).2 = true ∧
  kernel_driver short_run.2 ≠ true.
Proof.
  split.
  - apply (proj1 (driver_state_at_exit (host_of (Some "hq") (dongle 65 None)) true)).
    reflexivity.
  - apply (proj2 (proj2 (driver_state_at_exit short_host true))).
    split; [reflexivity |]. exists "hq", (dongle 64 None), 3%Z.
    split; [apply sample_reaches, hq_choice |]. left. cbn. lia.
Defined.

(** ** The configuration block *)

(** X7: the block that obtains the configuration makes one call and
    never lets an exception out: whatever is raised, of any class, ends
    the run through [sys.exit] with the configuration message.  It
    yields the interface number exactly when the active configuration
    has an interface 0 with alternate setting 0 and that interface has
    at least one endpoint; an interface without endpoints is a failure,
    although the endpoint is not used afterwards. *)
Theorem configuration_block (dev : Device) (w : World) :
  (obtain_interface dev w).2 = log get_active_configuration_call w ∧
  (∀ e, (obtain_interface dev w).1 ≠ Raised e) ∧
  (∀ i, (obtain_interface dev w).1 = Val i ↔
        ∃ cfg intf alts others ep eps,
          active_configuration dev = inr cfg ∧
          interfaces cfg = (intf :: alts) :: others ∧
          endpoints intf = ep :: eps ∧
          bInterfaceNumber intf = i) ∧
  (∀ e, active_configuration dev = inl e →
        (obtain_interface dev w).1 = Exited (failed_configuration e)) ∧
  (∀ cfg intf alts others,
        active_configuration dev = inr cfg →
        interfaces cfg = (intf :: alts) :: others →
        endpoints intf = [] →
        (obtain_interface dev w).1 = Exited (failed_configuration IndexError)).
Proof.
  rewrite obtain_interface_retrieved. unfold retrieved.
  destruct (active_configuration dev) as [e | cfg]; cbn [fst snd].
  { split_and!; try done.
    - intros i. split; [discriminate | intros (? & ? & ? & ? & ? & ? & ? & _); discriminate].
    - intros e' [= ->]. reflexivity. }
  destruct (interfaces cfg) as [| [| intf alts] others] eqn:Hintfs; cbn.
  1, 2: split_and!; try done;
    intros i; (split; [discriminate |]);
    intros (? & ? & ? & ? & ? & ? & [= <-] & ? & _); congruence.
  destruct (endpoints intf) as [| ep eps] eqn:Heps; cbn.
  - split_and!; try done.
    intros i. split; [discriminate |].
    intros (? & ? & ? & ? & ? & ? & [= <-] & ? & ? & _). congruence.
  - split_and!; try done.
    + intros i. split.
      * intros [= <-]. by exists cfg, intf, alts, others, ep, eps.
      * intros (? & ? & ? & ? & ? & ? & [= <-] & ? & ? & <-). congruence.
    + intros ? ? ? ? [= <-] ? ?. congruence.
Qed.

Lemma configuration_block_witness :
  (obtain_interface bare_dongle (boot true)).1 =
    Exited (failed_configuration IndexError).
Proof.
  apply (proj2 (proj2 (proj2 (proj2 (configuration_block bare_dongle (boot true)))))
           {| interfaces := [[ {| bInterfaceNumber := 3; endpoints := [] |} ]] |}
           {| bInterfaceNumber := 3; endpoints := [] |} [] []);
    reflexivity.
Defined.

(** ** The interface the driver calls name *)

(** X8: every call on the kernel driver (the check, the detach, the
    reattach) names the same interface: the number of interface 0,
    alternate setting 0, of the dongle that was found. *)
Theorem driver_calls_name_retrieved_interface (h : Host) (b : bool) (j : Z) :
  is_kernel_driver_active_call j ∈ calls (run h b) ∨
  detach_kernel_driver_call j ∈ calls (run h b) ∨
  attach_kernel_driver_call j ∈ calls (run h b) →
  ∃ dev, enumerate (bus h) 0x041e 0x3130 = Some dev ∧ retrieved dev = inr j.
Proof.
  destruct (run_cases h b) as [(c & Hfails & Hearly) | (m & dev & i & Hreach)].
  - early_cases Hfails Hearly; unfold calls, stuck; cbn [snd trace];
      intros [Hin | [Hin | Hin]]; try absent Hin.
    all: unfold checks, preamble in Hin; cbn [app] in Hin; members Hin;
      simplify_eq; exists dev; split; apply Hpre.
  - pose proof (proj1 Hreach) as [_ _ _ Hfound Hintf].
    transfer_cases Hreach; intros [Hin | [Hin | Hin]]; members Hin;
      simplify_eq; by exists dev.
Qed.

Lemma driver_calls_name_retrieved_interface_witness :
  ∃ dev, enumerate (bus short_host) 0x041e 0x3130 = Some dev ∧
         retrieved dev = inr 3%Z.
Proof.
  apply (driver_calls_name_retrieved_interface short_host true 3%Z).
  right. left. apply list_elem_of_lookup_2 with 5%nat. reflexivity.
Defined.

(** ** No call is repeated *)

Ltac distinct_calls :=
  repeat first
    [ apply NoDup_nil_2
    | apply NoDup_cons_2;
      [ let Hin := fresh "Hin" in
        intros Hin; members Hin; simplify_eq; contradiction | ] ].

Lemma checks_distinct (i : Z) (k : nat) : NoDup (take k (checks i)).
Proof.
  do 6 (destruct k as [| k]; [cbn; distinct_calls |]).
  destruct k; cbn; distinct_calls.
Qed.

(** X11: no run makes the same call twice: there is no retry of the
    detach, of the transfer or of the reattach, and no line is printed
    twice. *)
Theorem no_call_repeated (h : Host) (b : bool) : NoDup (calls (run h b)).
Proof.
  destruct (run_cases h b) as [(c & Hfails & Hearly) | (m & dev & i & Hreach)].
  - destruct (early_failure _ _ _ Hfails Hearly) as (r & i & k & -> & _).
    apply checks_distinct.
  - pose proof (select_line m) as Hline.
    transfer_cases Hreach; distinct_calls.
Qed.

(** ** Several devices on the bus *)

Lemma enumerate_first (others rest : list Device) (d : Device) (vid pid : Z) :
  Forall (λ o, ¬ (idVendor o = vid ∧ idProduct o = pid)) others →
  idVendor d = vid ∧ idProduct d = pid →
  enumerate (others ++ d :: rest) vid pid = Some d.
Proof.
  intros Hothers Hd. unfold enumerate.
  induction Hothers as [| o others Ho _ IH]; cbn.
  - by rewrite bool_decide_eq_true_2.
  - by rewrite bool_decide_eq_false_2.
Qed.

(** X12: only the first device with the dongle's identifiers counts.
    Devices with other identifiers ahead of it, and any device after it
    (a second dongle included), leave the run as it is with that dongle
    alone on the bus. *)
Theorem first_dongle_only (h : Host) (b : bool) (others rest : list Device)
    (d : Device) :
  bus h = others ++ d :: rest →
  Forall (λ o, ¬ is_dongle o) others → is_dongle d →
  run h b = run {| euid := euid h; argv_mode := argv_mode h; bus := [d] |} b.
Proof.
  intros Hbus Hothers Hd.
  pose proof (enumerate_first others rest d _ _ Hothers Hd) as Hfound.
  pose proof (enumerate_first [] [] d _ _ (Forall_nil_2 _) Hd) as Halone.
  rewrite <- Hbus in Hfound. cbn [app] in Halone.
  unfold run, main. unfold_preamble.
  cbn [plain uid argv backend attached euid argv_mode bus].
  rewrite Hfound, Halone. reflexivity.
Qed.

Lemma first_dongle_only_witness :
  run {| euid := 0; argv_mode := Some "hq";
         bus := [keyboard; dongle 65 None; dongle 64 None] |} true =
  run (host_of (Some "hq") (dongle 65 None)) true.
Proof.
  apply (first_dongle_only
           {| euid := 0; argv_mode := Some "hq";
              bus := [keyboard; dongle 65 None; dongle 64 None] |}
           true [keyboard] [dongle 64 None] (dongle 65 None)).
  - reflexivity.
  - repeat constructor. intros [Hvid _]. discriminate Hvid.
  - split; reflexivity.
Defined.

(** * The process on any machine *)

(** ** Finding the dongle *)

Lemma enumerate_none (devices : list Device) (vid pid : Z) :
  enumerate devices vid pid = None ↔
  Forall (λ d, ¬ (idVendor d = vid ∧ idProduct d = pid)) devices.
Proof.
  unfold enumerate. induction devices as [| d devices IH]; cbn.
  - split; [constructor | reflexivity].
  - case_bool_decide as Hd.
    + split; [discriminate |]. intros Hall.
      apply Forall_cons_1 in Hall as [Hnot _]. contradiction.
    + rewrite IH. split.
      * intros Hall. by constructor.
      * intros Hall. by apply Forall_cons_1 in Hall as [_ ?].
Qed.


(** ** The command line *)

Lemma argparse_bound (l : list arg) (bound : option string) (extras : bool)
    (args : Namespace) :
  argparse bound extras l = Parsed args →
  match bound with
  | Some tok => mode args = tok
  | None => mode args ∈ choices
  end.
Proof.
  revert bound extras. induction l as [| [s |] rest IH]; intros bound extras.
  - cbn. destruct bound; [| discriminate].
    destruct extras; [discriminate |]. by intros [= <-].
  - cbn. destruct bound as [tok |].
    + apply (IH (Some tok) true).
    + case_bool_decide as Hs; [| discriminate].
      intros Hparse. apply (IH (Some s) extras) in Hparse. by rewrite Hparse.
  - discriminate.
Qed.

Lemma argparse_choice (l : list arg) (args : Namespace) :
  argparse None false l = Parsed args → mode args ∈ choices.
Proof. apply (argparse_bound l None false). Qed.



Lemma argparse_view (M : Machine) (args : Namespace) :
  argparse None false (argv M) = Parsed args →
  argparse None false (argv (plain (view M args))) = Parsed args.
Proof.
  intros Hparse. destruct args as [m].
  apply (argparse_plain (view M {| mode := m |}) m); [reflexivity |].
  by apply argparse_choice in Hparse.
Qed.

(** The parser on some command lines. *)
Example argparse_samples :
  argparse None false [] = UsageError ∧
  argparse None false [Word "hq"] = Parsed {| mode := "hq" |} ∧
  argparse None false [Word "lq"] = UsageError ∧
  argparse None false [HelpFlag] = HelpExit ∧
  argparse None false [Word "hq"; Word "extra"] = UsageError ∧
  argparse None false [Word "hq"; HelpFlag] = HelpExit ∧
  argparse None false [HelpFlag; Word "lq"] = HelpExit ∧
  argparse None false [Word "lq"; HelpFlag] = UsageError ∧
  argparse None false [Word "hq"; Word "extra"; HelpFlag] = HelpExit.
Proof. repeat split. Qed.

(** ** The course of the script *)

Lemma switch_query_error (M : Machine) (dev : Device) (i : Z) (m : string)
    (e : exn) (w : World) :
  driver_query M = Some e →
  switch M dev i m w = (Raised e, log (is_kernel_driver_active_call i) w).
Proof.
  intros Hquery. rewrite switch_payload. unfold_switch. by rewrite Hquery.
Qed.

Lemma switch_query_works (M M' : Machine) (dev : Device) (i : Z) (m : string)
    (w : World) :
  driver_query M = driver_query M' →
  switch M dev i m w = switch M' dev i m w.
Proof.
  intros Hquery. rewrite !switch_payload.
  unfold detach_if_necessary, is_kernel_driver_active.
  by rewrite Hquery.
Qed.

Lemma script_course (M : Machine) (b : bool) : course M b (script M (boot b)).
Proof.
  destruct (decide (uid M = 0%Z)) as [Hroot | Hroot].
  2: { rewrite (script_not_root _ _ Hroot). by apply course_not_root. }
  destruct (argparse None false (argv M)) as [args | |] eqn:Hparse.
  2: { rewrite (script_help _ _ Hroot Hparse). by apply course_help. }
  2: { rewrite (script_usage _ _ Hroot Hparse). by apply course_usage. }
  destruct (backend M) as [e |] eqn:Hbackend.
  { rewrite (script_no_backend _ _ _ _ Hroot Hparse Hbackend).
    by eapply course_no_backend. }
  pose proof (argparse_choice _ _ Hparse) as Hchoice.
  pose proof (argparse_view _ _ Hparse) as Hview.
  destruct (enumerate (attached M) 0x041e 0x3130) as [dev |] eqn:Hfound.
  2: { rewrite (script_not_found _ _ _ Hroot Hparse Hbackend Hfound).
       rewrite <- (script_not_found (plain (view M args)) args (boot b)
                     Hroot Hview eq_refl Hfound).
       apply course_plain; try done. right. intros dev i [_ _ _ Hdev _].
       cbn [view bus] in Hdev. rewrite Hfound in Hdev. discriminate. }
  destruct (retrieved dev) as [e | i] eqn:Hintf.
  { rewrite (script_configuration_error _ _ _ _ _ Hroot Hparse Hbackend Hfound Hintf).
    rewrite <- (script_configuration_error (plain (view M args)) args dev e
                  (boot b) Hroot Hview eq_refl Hfound Hintf).
    apply course_plain; try done. right. intros dev' i [_ _ _ Hdev Hi].
    cbn [view bus] in Hdev. rewrite Hfound in Hdev. injection Hdev as <-.
    rewrite Hintf in Hi. discriminate. }
  assert (preconditions (view M args) (mode args) dev i) as Hpre
    by (by constructor).
  rewrite (script_switch _ _ _ _ _ Hroot Hparse Hbackend Hfound Hintf).
  destruct (driver_query M) as [e |] eqn:Hquery.
  - rewrite (switch_query_error _ _ _ _ _ _ Hquery).
    by eapply course_no_query.
  - assert (driver_query M = driver_query (plain (view M args))) as Hsame
      by (rewrite Hquery; reflexivity).
    rewrite (switch_query_works _ _ _ _ _ _ Hsame).
    rewrite <- (script_switch (plain (view M args)) args dev i (boot b)
                  Hroot Hview eq_refl Hfound Hintf).
    apply course_plain; try done. left. exact Hquery.
Qed.



(** ** Facts about runs, for use on machines *)


Lemma run_exit_zero_iff (h : Host) (b : bool) :
  exit_code (run h b) = 0%Z ↔ succeeds h b.
Proof.
  split.
  - intros Hzero. destruct (succeeds_or_fails h b) as [? | [c Hfails]]; [done |].
    by apply fails_nonzero in Hfails.
  - intros (m & dev & i & Hreach & Hok & Hattach).
    transfer_cases Hreach; simplify_eq; try reflexivity;
      specialize (Hattach eq_refl); simplify_eq.
Qed.


Lemma all_succeeds_parsed (M : Machine) (b : bool) :
  all_succeeds M b →
  ∃ args dev i, uid M = 0%Z ∧ argparse None false (argv M) = Parsed args ∧
    backend M = None ∧ driver_query M = None ∧
    preconditions (view M args) (mode args) dev i ∧ succeeds (view M args) b.
Proof.
  intros (args & Hparse & Hbackend & Hquery & Hok).
  pose proof Hok as (m & dev & i & [Hpre _] & _).
  pose proof (pre_mode _ _ _ _ Hpre) as [= <-].
  exists args, dev, i. split_and!; try done. apply Hpre.
Qed.

(** ** Release of the device resources *)



(** ** What the exit of the interpreter leaves as it is *)

Lemma process_outcome (M : Machine) (b : bool) :
  (process M b).1 = (script M (boot b)).1.
Proof. reflexivity. Qed.

Lemma process_exit_code (M : Machine) (b : bool) :
  exit_code (process M b) = exit_code (script M (boot b)).
Proof. reflexivity. Qed.

Lemma process_calls (M : Machine) (b : bool) :
  calls (process M b) = calls (script M (boot b)).
Proof.
  unfold process, interpreter_exit, calls. cbn [snd].
  by destruct (device_object M _).
Qed.



(** ** Usage errors and the help *)




(** ** Exit status *)

(** C8, as the code has it: the exit status is 0 exactly when the
    whole sequence succeeds, or when a help option makes the argument
    parser print the help and stop before anything is done.  It is not
    0 on a failure of any class (privilege, usage, device not found,
    configuration retrieval, driver detach, transfer, driver reattach),
    nor when [usb.core.find] or the query for the kernel driver
    raises. *)
Theorem exit_zero_iff_success_or_help (M : Machine) (b : bool) :
  (exit_code (process M b) = 0%Z ↔
     all_succeeds M b ∨ (uid M = 0%Z ∧ asks_help M)) ∧
  (uid M ≠ 0%Z → exit_code (process M b) = 1%Z) ∧
  (uid M = 0%Z → argparse None false (argv M) = UsageError →
     exit_code (process M b) = 2%Z) ∧
  (∀ args c, uid M = 0%Z → argparse None false (argv M) = Parsed args →
     fails (view M args) b c → exit_code (process M b) ≠ 0%Z) ∧
  (∀ args e, uid M = 0%Z → argparse None false (argv M) = Parsed args →
     backend M = Some e → exit_code (process M b) = 1%Z).
Proof.
  rewrite process_exit_code. split_and!.
  - destruct (script_course M b) as
      [ Hroot | Hroot Hhelp | Hroot Hparse | args e Hroot Hparse Hbackend
      | args dev i e Hparse Hbackend Hpre Hquery
      | args Hroot Hparse Hbackend Hquery ]; unfold asks_help in *.
    + split; [discriminate |].
      intros [Hall | [Hzero _]]; [| contradiction].
      apply all_succeeds_parsed in Hall as (? & ? & ? & ? & _). contradiction.
    + split; [intros _; by right | reflexivity].
    + split; [discriminate |].
      intros [Hall | [_ Hhelp]]; [| congruence].
      apply all_succeeds_parsed in Hall as (? & ? & ? & ? & ? & _). congruence.
    + split; [discriminate |].
      intros [Hall | [_ Hhelp]]; [| congruence].
      apply all_succeeds_parsed in Hall as (? & ? & ? & ? & ? & ? & _). congruence.
    + split; [discriminate |].
      intros [Hall | [_ Hhelp]]; [| congruence].
      apply all_succeeds_parsed in Hall as (? & ? & ? & ? & ? & ? & ? & _).
      congruence.
    + rewrite run_exit_zero_iff. split.
      * intros Hok. left. exists args. split_and!; try done.
        destruct Hquery as [Hquery | Hquery]; [done |].
        destruct Hok as (m & dev & i & [Hpre _] & _).
        pose proof (pre_mode _ _ _ _ Hpre) as [= <-]. by destruct (Hquery dev i).
      * intros [(args0 & Hparse0 & _ & _ & Hok) | [_ Hhelp]]; congruence.
  - intros Hroot. by rewrite (script_not_root _ _ Hroot).
  - intros Hroot Hparse. by rewrite (script_usage _ _ Hroot Hparse).
  - intros args0 c Hzero Hparsed Hfails.
    destruct (script_course M b) as
      [ Hroot | Hroot Hhelp | Hroot Hparse | args e Hroot Hparse Hbackend
      | args dev i e Hparse Hbackend Hpre Hquery
      | args Hroot Hparse Hbackend Hquery ]; unfold asks_help in *;
      try discriminate; try congruence.
    assert (args = args0) as -> by congruence.
    by apply fails_nonzero in Hfails.
  - intros args e Hroot Hparse Hbackend.
    by rewrite (script_no_backend _ _ _ _ Hroot Hparse Hbackend).
Qed.

Lemma exit_zero_iff_success_or_help_witness :
  exit_code (process {| uid := 0; argv := [Word "hq"; Word "extra"];
                        backend := None; attached := [dongle 65 None];
                        driver_query := None |} false) = 2%Z ∧
  exit_code (process {| uid := 500; argv := [Word "hq"]; backend := None;
                        attached := [dongle 65 None];
                        driver_query := None |} false) = 1%Z.
Proof.
  split.
  - apply (proj1 (proj2 (proj2 (exit_zero_iff_success_or_help
             {| uid := 0; argv := [Word "hq"; Word "extra"]; backend := None;
                attached := [dongle 65 None]; driver_query := None |} false))));
      reflexivity.
  - apply (proj1 (proj2 (exit_zero_iff_success_or_help
             {| uid := 500; argv := [Word "hq"]; backend := None;
                attached := [dongle 65 None]; driver_query := None |} false))).
    cbn. lia.
Defined.

(** C8, as stated, fails: on [-h] the status is 0 although nothing of
    the sequence has run: no device is looked for and no transfer is
    made. *)
Lemma help_exits_zero_without_switch :
  exit_code (process help_machine true) = 0%Z ∧
  calls (process help_machine true) = [geteuid_call; parse_args_call] ∧
  transfers (calls (process help_machine true)) = [] ∧
  ¬ all_succeeds help_machine true.
Proof.
  split_and!; [reflexivity | reflexivity | reflexivity |].
  intros (args & Hparse & _). discriminate Hparse.
Qed.

(** ** A failed transfer after the detach *)




(** ** More facts about runs *)

Lemma run_uncaught_exception (h : Host) (b : bool) (exc : exn) :
  (run h b).1 = Raised exc →
  cls exc = OtherException ∧
  ∃ m dev i, preconditions h m dev i ∧
    ((b = true ∧ detach_reply dev = Some exc) ∨
     (reaches_transfer h b m dev i ∧ ctrl_transfer_reply dev = inl exc) ∨
     (reaches_transfer h b m dev i ∧ b = true ∧
      ctrl_transfer_reply dev = inr 65%Z ∧ attach_reply dev = Some exc)).
Proof.
  destruct (run_cases h b) as [(c & Hfails & Hearly) | (m & dev & i & Hreach)].
  - early_cases Hfails Hearly; try discriminate.
    unfold caught_or_raised. case_bool_decide as Hcls; [discriminate |].
    intros [= ->]. split; [by apply not_USBError |].
    exists m, dev, i. eauto.
  - pose proof Hreach as Hkeep. pose proof (proj1 Hreach) as Hpre.
    transfer_cases Hreach; try discriminate.
    all: intros [= ->]; (split; [by apply not_USBError |]).
    all: exists m, dev, i; split; [exact Hpre |]; subst; eauto 10.
Qed.

Lemma run_not_found_iff (h : Host) (b : bool) :
  (run h b).1 = Exited not_found ↔
  euid h = 0%Z ∧ (∃ m, argv_mode h = Some m ∧ m ∈ choices) ∧
  Forall (λ d, ¬ is_dongle d) (bus h).
Proof.
  split.
  - destruct (run_cases h b) as [(c & Hfails & Hearly) | (m & dev & i & Hreach)].
    + early_cases Hfails Hearly; unfold caught_or_raised;
        try case_bool_decide; try discriminate.
      intros _. split_and!; [done | by exists m |].
      by apply enumerate_none in Hfound.
    + transfer_cases Hreach; discriminate.
  - intros (Hroot & (m & Hmode & Hchoice) & Hnone).
    apply enumerate_none in Hnone.
    by rewrite (run_not_found _ _ _ Hroot Hmode Hchoice Hnone).
Qed.

Lemma prints_checks (i : Z) (k : nat) : prints (take k (checks i)) = [].
Proof. do 6 (destruct k as [| k]; [reflexivity |]). destruct k; reflexivity. Qed.

Lemma run_output (h : Host) (b : bool) :
  (prints (calls (run h b)) = [] ∧ transfers (calls (run h b)) = []) ∨
  (argv_mode h = Some "hq" ∧
   transfers (calls (run h b)) = [(0x21, 0x09, 0x203, 0x00, payload "hq")%Z] ∧
   (prints (calls (run h b)) = [hq_line] ∨
    prints (calls (run h b)) = [hq_line; success_line])) ∨
  (argv_mode h = Some "ll" ∧
   transfers (calls (run h b)) = [(0x21, 0x09, 0x203, 0x00, payload "ll")%Z] ∧
   (prints (calls (run h b)) = [ll_line] ∨
    prints (calls (run h b)) = [ll_line; success_line])).
Proof.
  destruct (run_cases h b) as [(c & Hfails & Hearly) | (m & dev & i & Hreach)].
  - left. destruct (early_failure _ _ _ Hfails Hearly) as (r & i & k & -> & _).
    split; [apply prints_checks | apply transfers_checks].
  - right. pose proof (transfers_reached _ _ _ _ _ Hreach) as Hsent.
    pose proof (proj1 Hreach) as [_ Hmode Hchoice _ _].
    apply choices_spec in Hchoice as [-> | ->]; [left | right];
      (split; [exact Hmode |]); (split; [exact Hsent |]); clear Hsent;
      transfer_cases Hreach; cbn; tauto.
Qed.

(** ** Exceptions that reach the top level *)

(** X4: an exception reaches the top level only in these ways:
    [usb.core.find] raises; the query [is_kernel_driver_active] raises
    (both calls stand outside every [try], so whatever they raise, a
    [USBError] included, ends the process with a traceback); or the
    detach, the control transfer or the reattach raises an exception
    that is not a [USBError].  A [USBError] from those three, and
    anything raised in the configuration block, is caught. *)
Theorem uncaught_exception_sources (M : Machine) (b : bool) (exc : exn) :
  ((process M b).1 = Raised exc →
     (uid M = 0%Z ∧ backend M = Some exc) ∨
     (driver_query M = Some exc ∧
      ∃ args dev i, preconditions (view M args) (mode args) dev i) ∨
     (cls exc = OtherException ∧
      ∃ args dev i, preconditions (view M args) (mode args) dev i ∧
        ((b = true ∧ detach_reply dev = Some exc) ∨
         ctrl_transfer_reply dev = inl exc ∨
         (b = true ∧ ctrl_transfer_reply dev = inr 65%Z ∧
          attach_reply dev = Some exc)))) ∧
  (∀ args, uid M = 0%Z → argparse None false (argv M) = Parsed args →
     backend M = Some exc → (process M b).1 = Raised exc) ∧
  (∀ args dev i, argparse None false (argv M) = Parsed args →
     backend M = None → preconditions (view M args) (mode args) dev i →
     driver_query M = Some exc → (process M b).1 = Raised exc).
Proof.
  rewrite process_outcome. split_and!.
  - destruct (script_course M b) as
      [ Hroot | Hroot Hhelp | Hroot Hparse | args e Hroot Hparse Hbackend
      | args dev i e Hparse Hbackend Hpre Hquery
      | args Hroot Hparse Hbackend Hquery ]; try discriminate.
    + intros [= ->]. left. by split.
    + intros [= ->]. right. left. split; [done |]. by exists args, dev, i.
    + intros Hraised. right. right.
      apply run_uncaught_exception in Hraised
        as (Hcls & m & dev & i & Hpre & Hwhere).
      pose proof (pre_mode _ _ _ _ Hpre) as [= <-].
      split; [done |]. exists args, dev, i. split; [done |].
      destruct Hwhere as [? | [[_ ?] | (_ & ? & ? & ?)]]; eauto.
  - intros args Hroot Hparse Hbackend.
    by rewrite (script_no_backend _ _ _ _ Hroot Hparse Hbackend).
  - intros args dev i Hparse Hbackend [Hroot _ _ Hfound Hintf] Hquery.
    cbn [view euid bus] in Hroot, Hfound.
    rewrite (script_switch _ _ _ _ _ Hroot Hparse Hbackend Hfound Hintf).
    by rewrite (switch_query_error _ _ _ _ _ _ Hquery).
Qed.

Lemma uncaught_exception_sources_witness :
  (process no_query_machine true).1 = Raised busy ∧ cls busy = USBError.
Proof.
  split; [| reflexivity].
  apply (proj2 (proj2 (uncaught_exception_sources no_query_machine true busy))
           {| mode := "hq" |} (dongle 65 None) 3%Z);
    [reflexivity | reflexivity | | reflexivity].
  apply (sample_preconditions "hq" (dongle 65 None) hq_choice);
    reflexivity.
Defined.

(** ** The dongle is not there *)

(** X6: the process ends with the device-not-found message exactly
    when the caller is root, the command line is accepted,
    [usb.core.find] has a backend to work with, and no device on the
    bus carries the identifiers 041e:3130. *)
Theorem device_not_found_iff (M : Machine) (b : bool) :
  (process M b).1 = Exited not_found ↔
  uid M = 0%Z ∧ (∃ args, argparse None false (argv M) = Parsed args) ∧
  backend M = None ∧ Forall (λ d, ¬ is_dongle d) (attached M).
Proof.
  rewrite process_outcome. split.
  - destruct (script_course M b) as
      [ Hroot | Hroot Hhelp | Hroot Hparse | args e Hroot Hparse Hbackend
      | args dev i e Hparse Hbackend Hpre Hquery
      | args Hroot Hparse Hbackend Hquery ]; try discriminate.
    intros Hout. apply run_not_found_iff in Hout as (_ & _ & Hnone).
    split_and!; [done | by exists args | done | exact Hnone].
  - intros (Hroot & (args & Hparse) & Hbackend & Hnone).
    apply enumerate_none in Hnone.
    by rewrite (script_not_found _ _ _ Hroot Hparse Hbackend Hnone).
Qed.

Lemma device_not_found_iff_witness :
  (process {| uid := 0; argv := [Word "ll"]; backend := None;
              attached := [keyboard]; driver_query := Some busy |} true).1 =
    Exited not_found.
Proof.
  apply (proj2 (device_not_found_iff
                  {| uid := 0; argv := [Word "ll"]; backend := None;
                     attached := [keyboard]; driver_query := Some busy |} true)).
  split_and!; [reflexivity | by exists {| mode := "ll" |} | reflexivity |].
  repeat constructor. intros [Hvid _]. discriminate Hvid.
Defined.

(** ** What the script prints *)

(** X10: the [print] calls of the script follow the mode.  A process
    that does not attempt the control transfer makes no [print] call
    (what the argument parser writes for the help or for a usage error
    is not a call of the script).  A process that attempts it was given
    [hq] or [ll]; the first line printed and the payload sent are those
    of that very token, so the [else] branch of the selection is only
    ever taken for [ll]; and the only line that can follow is the
    success line. *)
Theorem output_follows_mode (M : Machine) (b : bool) :
  (prints (calls (process M b)) = [] ∧ transfers (calls (process M b)) = []) ∨
  (argparse None false (argv M) = Parsed {| mode := "hq" |} ∧
   transfers (calls (process M b)) = [(0x21, 0x09, 0x203, 0x00, payload "hq")%Z] ∧
   (prints (calls (process M b)) = [hq_line] ∨
    prints (calls (process M b)) = [hq_line; success_line])) ∨
  (argparse None false (argv M) = Parsed {| mode := "ll" |} ∧
   transfers (calls (process M b)) = [(0x21, 0x09, 0x203, 0x00, payload "ll")%Z] ∧
   (prints (calls (process M b)) = [ll_line] ∨
    prints (calls (process M b)) = [ll_line; success_line])).
Proof.
  rewrite process_calls.
  destruct (script_course M b) as
    [ Hroot | Hroot Hhelp | Hroot Hparse | args e Hroot Hparse Hbackend
    | args dev i e Hparse Hbackend Hpre Hquery
    | args Hroot Hparse Hbackend Hquery ]; try (left; split; reflexivity).
  destruct args as [m]. cbn [view mode] in *.
  destruct (run_output {| euid := uid M; argv_mode := Some m; bus := attached M |} b)
    as [Hnone | [(Hm & Hrest) | (Hm & Hrest)]].
  - by left.
  - right. left. cbn [argv_mode] in Hm. injection Hm as ->. by split.
  - right. right. cbn [argv_mode] in Hm. injection Hm as ->. by split.
Qed.
